(** * dnsquest: the iterative resolution engine of [dnsquest/resolver.py]

    A shallow embedding of [DNSQuestResolver.resolve] and
    [DNSQuestResolver._iterative_resolve], and the properties of the
    engine that the specification states about them; then of
    [DNSQuestResolver.format_output] and of [main] of [__main__.py], and
    what the code shows of them.

    The engine talks to the network through [dns.query.udp] and re-enters
    itself for CNAME targets, glue hops and name-server names.  The network
    is an oracle that threads an abstract world.  The algorithm is read in
    two ways.  In [_iterative_resolve] the recursion is cut by fuel, so
    that a run that completes is a run of the algorithm alone, whatever the
    interpreter allows.  In [_iterative_resolve_limited] the interpreter's
    recursion limit is part of the run: the call that would nest too deep
    raises [RecursionError] where it is made, inside the [try] of the
    caller. *)

From Stdlib Require Import ZArith List String Ascii Bool Lia DecimalString.
Import ListNotations.

Local Open Scope string_scope.
Local Open Scope list_scope.
Local Open Scope Z_scope.
Local Open Scope nat_scope.

(** ** Data of the DNS library *)

(** [dns.rdatatype]: record types are small integers. *)
Definition RdType := Z.

Module rdatatype.
Definition A : RdType := 1%Z.
Definition NS : RdType := 2%Z.
Definition CNAME : RdType := 5%Z.
Definition SOA : RdType := 6%Z.
End rdatatype.

(** [dns.rcode]. *)
Module rcode.
Definition NOERROR : Z := 0%Z.
Definition NXDOMAIN : Z := 3%Z.
End rcode.

(** A server is the text of its address, as in [ROOT_SERVERS]. *)
Definition Server := string.

(** [dns.name]: the engine only parses names ([dns.name.from_text], which
    can raise) and prints them ([str]); it never compares them. *)
Class NameLib := {
  Name : Type;
  from_text : string -> option Name;
  to_text : Name -> string
}.

Section Messages.
Context `{NameLib}.

(** The rdatas of an rrset all have the type of the rrset, so the
    contents are given per type.  Only address, NS and CNAME rdatas are
    read by the engine; every other rrset (SOA among them) is known by
    its type alone. *)
Inductive Rdatas :=
| A_rdatas (addresses : list Server)
| NS_rdatas (targets : list Name)
| CNAME_rdatas (targets : list Name)
| other_rdatas (rdtype : RdType).

Record RRset := mkRRset {
  name : Name;
  ttl : Z;
  rdatas : Rdatas
}.

(** [rrset.rdtype] *)
Definition rdtype (rrset : RRset) : RdType :=
  match rdatas rrset with
  | A_rdatas _ => rdatatype.A
  | NS_rdatas _ => rdatatype.NS
  | CNAME_rdatas _ => rdatatype.CNAME
  | other_rdatas t => t
  end.

(** [[rr.address for rr in rrset]] *)
Definition addresses_of (rrset : RRset) : list Server :=
  match rdatas rrset with
  | A_rdatas l => l
  | _ => []
  end.

(** [[rr.target for rr in rrset]] *)
Definition targets_of (rrset : RRset) : list Name :=
  match rdatas rrset with
  | NS_rdatas l => l
  | CNAME_rdatas l => l
  | _ => []
  end.

(** [dns.message.Message], as far as the engine reads it. *)
Record Response := mkResponse {
  rcode_of : Z;
  answer : list RRset;
  authority : list RRset;
  additional : list RRset
}.

(** What [dns.query.udp] does: it returns a response, raises
    [dns.exception.Timeout], or raises something else. *)
Inductive Reply :=
| Received (response : Response)
| Timeout
| OtherError.
End Messages.

(** The network: [udp qname qtype ns] is
    [dns.query.udp(dns.message.make_query(qname, qtype, IN), ns, timeout=5)]. *)
Class Network `{NameLib} := {
  World : Type;
  udp : Name -> RdType -> Server -> World -> Reply * World
}.

(** ** Exceptions *)

Inductive Exn :=
| NXDomainError (msg : string)
| TimeoutError (msg : string)
| NoRecordError (msg : string)
| DNSResolutionError (msg : string)
| PyException (msg : string).

Inductive Res (A : Type) :=
| Return (a : A)
| Raise (e : Exn).
Arguments Return {A} a.
Arguments Raise {A} e.

(** ** The resolver *)

Definition ROOT_SERVERS : list Server :=
  [ "198.41.0.4"; "170.247.170.2"; "192.33.4.12"; "199.7.91.13";
    "192.203.230.10"; "192.5.5.241"; "192.112.36.4"; "198.97.190.53";
    "192.36.148.17"; "192.58.128.30"; "193.0.14.129"; "199.7.83.42";
    "202.12.27.33" ]%string.

(** Truth value of a Python list. *)
Definition truthy {A : Type} (l : list A) : bool :=
  match l with
  | [] => false
  | _ :: _ => true
  end.

(** [s.endswith(suffix)] *)
Fixpoint endswith (s suffix : string) : bool :=
  if String.eqb s suffix then true
  else match s with
       | EmptyString => false
       | String _ s' => endswith s' suffix
       end.

Section Engine.
Context `{Net : Network}.

(** A computation runs in a world; [None] is a run that the fuel cut. *)
Definition M (A : Type) : Type := World -> option (Res A * World).

(** [self._iterative_resolve], as the body calls it. *)
Variable self : Name -> RdType -> list Server -> M Response.

(** [return self._iterative_resolve(...)] inside the loop body: the body
    yields [Some r] when the function returns [r], and [None] when it
    falls through to the next server. *)
Definition return_call (call : M Response) : M (option Response) :=
  fun w =>
    match call w with
    | None => None
    | Some (Return r, w') => Some (Return (Some r), w')
    | Some (Raise e, w') => Some (Raise e, w')
    end.

(** Lines 92-99: [for rrset in response.answer]. *)
Fixpoint answer_loop (qtype : RdType) (response : Response)
         (rrsets : list RRset) : M (option Response) :=
  match rrsets with
  | [] => fun w => Some (Return None, w)
  | rrset :: rest =>
      if (rdtype rrset =? rdatatype.CNAME)%Z then
        match targets_of rrset with
        | [] => fun w => Some (Raise (PyException "IndexError"), w)
        | cname_target :: _ =>
            return_call (self cname_target qtype ROOT_SERVERS)
        end
      else if (rdtype rrset =? qtype)%Z then
        fun w => Some (Return (Some response), w)
      else answer_loop qtype response rest
  end.

(** Lines 104-106 and 136-140: the addresses of the A rrsets are
    appended to [next_servers]. *)
Fixpoint extend_addresses (rrsets : list RRset)
         (next_servers : list Server) : list Server :=
  match rrsets with
  | [] => next_servers
  | rrset :: rest =>
      if (rdtype rrset =? rdatatype.A)%Z
      then extend_addresses rest (next_servers ++ addresses_of rrset)
      else extend_addresses rest next_servers
  end.

(** Lines 116-124: [for rrset in response.authority]. *)
Fixpoint authority_loop (qname : Name) (qtype : RdType)
         (rrsets : list RRset) (ns_names : list string)
         (ns_records_found : bool) : Res (list string) :=
  match rrsets with
  | [] => Return ns_names
  | rrset :: rest =>
      if (rdtype rrset =? rdatatype.NS)%Z then
        authority_loop qname qtype rest
          (ns_names ++ map to_text (targets_of rrset)) true
      else if (rdtype rrset =? rdatatype.SOA)%Z then
        if negb ns_records_found && (qtype =? rdatatype.A)%Z then
          Raise (NoRecordError ("No A record found for " ++ to_text qname))
        else authority_loop qname qtype rest ns_names ns_records_found
      else authority_loop qname qtype rest ns_names ns_records_found
  end.

(** Lines 128-145: [for ns_name in ns_names], with its own [try]. *)
Fixpoint ns_loop (ns_names : list string) (next_servers : list Server)
  : World -> option (list Server * World) :=
  match ns_names with
  | [] => fun w => Some (next_servers, w)
  | ns_name :: rest =>
      match from_text ns_name with
      | None => ns_loop rest next_servers
      | Some ns_qname =>
          fun w =>
            match self ns_qname rdatatype.A ROOT_SERVERS w with
            | None => None
            | Some (Return ns_response, w') =>
                if truthy (answer ns_response)
                then ns_loop rest
                       (extend_addresses (answer ns_response) next_servers) w'
                else ns_loop rest next_servers w'
            | Some (Raise _, w') => ns_loop rest next_servers w'
            end
      end
  end.

(** Lines 112-153: [if response.authority]. *)
Definition follow_authority (qname : Name) (qtype : RdType)
           (response : Response) : M (option Response) :=
  if truthy (authority response) then
    match authority_loop qname qtype (authority response) [] false with
    | Raise e => fun w => Some (Raise e, w)
    | Return ns_names =>
        if truthy ns_names then
          fun w =>
            match ns_loop ns_names [] w with
            | None => None
            | Some (next_servers, w') =>
                if truthy next_servers
                then return_call (self qname qtype next_servers) w'
                else Some (Raise (NoRecordError
                       ("Found NS records but could not resolve any nameserver IPs for "
                          ++ to_text qname)), w')
            end
        else fun w => Some (Return None, w)
    end
  else fun w => Some (Return None, w).

(** Lines 102-153: glue first, then the authority section. *)
Definition follow_additional (qname : Name) (qtype : RdType)
           (response : Response) : M (option Response) :=
  if truthy (additional response) then
    let next_servers := extend_addresses (additional response) [] in
    if truthy next_servers
    then return_call (self qname qtype next_servers)
    else follow_authority qname qtype response
  else follow_authority qname qtype response.

(** Lines 86-153: the body of the [try], once the response is there. *)
Definition on_response (qname : Name) (qtype : RdType)
           (response : Response) : M (option Response) :=
  if (rcode_of response =? rcode.NXDOMAIN)%Z then
    fun w => Some (Raise (NXDomainError
               ("Domain " ++ to_text qname ++ " does not exist (NXDOMAIN)")), w)
  else
    fun w =>
      match (if truthy (answer response)
             then answer_loop qtype response (answer response) w
             else Some (Return None, w)) with
      | None => None
      | Some (Return (Some r), w') => Some (Return (Some r), w')
      | Some (Raise e, w') => Some (Raise e, w')
      | Some (Return None, w') => follow_additional qname qtype response w'
      end.

(** One turn of [for ns in nameservers]: either the function is left
    ([Break]), or the loop goes on with its two local variables. *)
Inductive Step :=
| Break (outcome : Res Response)
| Continue (last_timeout_error : option Exn) (successful_responses : nat).

(** Lines 81-169: the [try] statement and its handlers. *)
Definition try_server (qname : Name) (qtype : RdType) (ns : Server)
           (last_timeout_error : option Exn) (successful_responses : nat)
  : World -> option (Step * World) :=
  fun w =>
    match udp qname qtype ns w with
    | (Timeout, w1) =>
        Some (Continue
                (Some (TimeoutError ("DNS query timed out for " ++ to_text qname
                                       ++ " at server " ++ ns)))
                successful_responses, w1)
    | (OtherError, w1) =>
        Some (Continue last_timeout_error successful_responses, w1)
    | (Received response, w1) =>
        let successful_responses := S successful_responses in
        match on_response qname qtype response w1 with
        | None => None
        | Some (Return (Some r), w2) => Some (Break (Return r), w2)
        | Some (Return None, w2) =>
            Some (Continue last_timeout_error successful_responses, w2)
        | Some (Raise (NXDomainError m), w2) =>
            Some (Break (Raise (NXDomainError m)), w2)
        | Some (Raise (NoRecordError m), w2) =>
            Some (Break (Raise (NoRecordError m)), w2)
        | Some (Raise _, w2) =>
            Some (Continue last_timeout_error successful_responses, w2)
        end
    end.

(** Lines 171-182: all servers were tried. *)
Definition exhausted (qname : Name) (last_timeout_error : option Exn)
           (successful_responses : nat) : Exn :=
  match last_timeout_error, (successful_responses =? 0) with
  | Some e, true => e
  | _, _ =>
      if 0 <? successful_responses
      then NoRecordError ("No A or NS records found for " ++ to_text qname)
      else DNSResolutionError ("Unable to resolve domain " ++ to_text qname
                                 ++ ": all nameservers failed")
  end.

(** Lines 80-182: [for ns in nameservers] and what follows it. *)
Fixpoint for_ns (qname : Name) (qtype : RdType) (nameservers : list Server)
         (last_timeout_error : option Exn) (successful_responses : nat)
  : M Response :=
  match nameservers with
  | [] => fun w =>
      Some (Raise (exhausted qname last_timeout_error successful_responses), w)
  | ns :: rest => fun w =>
      match try_server qname qtype ns last_timeout_error
              successful_responses w with
      | None => None
      | Some (Break outcome, w') => Some (outcome, w')
      | Some (Continue last_timeout_error' successful_responses', w') =>
          for_ns qname qtype rest last_timeout_error' successful_responses' w'
      end
  end.
End Engine.

(** [DNSQuestResolver._iterative_resolve]: the calls of the function to
    itself take one unit of fuel each. *)
Fixpoint _iterative_resolve `{Network} (fuel : nat) (qname : Name)
         (qtype : RdType) (nameservers : list Server) : M Response :=
  match fuel with
  | O => fun _ => None
  | S fuel' =>
      for_ns (_iterative_resolve fuel') qname qtype nameservers None 0
  end.

(** Lines 60-61: the text that is parsed into the query name. *)
Definition qualify (domain : string) : string :=
  if endswith domain "." then domain else (domain ++ ".")%string.

(** [DNSQuestResolver.resolve].  The clock reading kept in
    [query_start_time] has no part in the outcome. *)
Definition resolve `{Network} (fuel : nat) (domain : string) : M Response :=
  let domain := qualify domain in
  match from_text domain with
  | None => fun w => Some (Raise (PyException "dns.name.from_text"), w)
  | Some domain_name =>
      fun w =>
        match _iterative_resolve fuel domain_name rdatatype.A ROOT_SERVERS w with
        | None => None
        | Some (Return final_answer, w') => Some (Return final_answer, w')
        | Some (Raise (DNSResolutionError m), w') =>
            Some (Raise (DNSResolutionError
                    ("Failed to resolve " ++ domain ++ ": " ++ m)), w')
        | Some (Raise (PyException m), w') =>
            Some (Raise (DNSResolutionError
                    ("Failed to resolve " ++ domain ++ ": " ++ m)), w')
        | Some (Raise e, w') => Some (Raise e, w')
        end
  end.

(** [DNSQuestResolver._iterative_resolve] as the interpreter runs it.  The
    function keeps no count of its depth: what bounds the nesting of its
    calls to itself is the recursion limit of the interpreter.  [limit] is
    the number of nested calls that the interpreter lets run; the call that
    would nest deeper raises [RecursionError] where it is made, before any
    query of its own: at lines 95, 109 and 148 inside the [try] of line 81,
    at line 130 inside the [try] of line 129.  How many calls fit under the
    limit depends on the frames of the caller and of the DNS library, so
    [limit] is left open; [RecursionError] raised inside [dns.query.udp] is
    a reply [OtherError] of the network. *)
Fixpoint _iterative_resolve_limited `{Network} (limit : nat) (qname : Name)
         (qtype : RdType) (nameservers : list Server) : M Response :=
  match limit with
  | O => fun w => Some (Raise (PyException "RecursionError"), w)
  | S limit' =>
      for_ns (_iterative_resolve_limited limit') qname qtype nameservers None 0
  end.

(** ** Runs of the server loop *)

Section Runs.
Context `{Net : Network}.
Variable self : Name -> RdType -> list Server -> M Response.

(** [loop_runs qname qtype servers (lt, sr, w) replies (lt', sr', w')]:
    starting with the local variables [lt], [sr] in world [w], the loop
    tried every server of [servers] in turn, no turn left the function,
    [replies] is what [dns.query.udp] gave turn by turn, and the loop
    ended with the local variables [lt'], [sr'] in world [w']. *)
Inductive loop_runs (qname : Name) (qtype : RdType)
  : list Server -> option Exn * nat * World -> list Reply
    -> option Exn * nat * World -> Prop :=
| runs_nil st : loop_runs qname qtype [] st [] st
| runs_cons ns rest lt sr w lt1 sr1 w1 replies st' :
    try_server self qname qtype ns lt sr w = Some (Continue lt1 sr1, w1) ->
    loop_runs qname qtype rest (lt1, sr1, w1) replies st' ->
    loop_runs qname qtype (ns :: rest) (lt, sr, w)
              (fst (udp qname qtype ns w) :: replies) st'.

(** [ns_fail ns_names w w']: from world [w] the sub-resolution of every
    name of [ns_names] raised (in parsing the name or in the engine),
    and the last one ended in world [w']. *)
Inductive ns_fail : list string -> World -> World -> Prop :=
| ns_fail_nil w : ns_fail [] w w
| ns_fail_parse ns_name rest w w' :
    from_text ns_name = None ->
    ns_fail rest w w' ->
    ns_fail (ns_name :: rest) w w'
| ns_fail_raise ns_name rest ns_qname e w w1 w' :
    from_text ns_name = Some ns_qname ->
    self ns_qname rdatatype.A ROOT_SERVERS w = Some (Raise e, w1) ->
    ns_fail rest w1 w' ->
    ns_fail (ns_name :: rest) w w'.
End Runs.

(** Reading the replies of a run. *)
Definition is_received `{NameLib} (reply : Reply) : bool :=
  match reply with
  | Received _ => true
  | _ => false
  end.

(** The server of the last turn that timed out, if any. *)
Fixpoint last_timed_out `{NameLib} (servers : list Server)
         (replies : list Reply) : option Server :=
  match servers, replies with
  | ns :: servers', reply :: replies' =>
      match last_timed_out servers' replies' with
      | Some ns' => Some ns'
      | None => match reply with
                | Timeout => Some ns
                | _ => None
                end
      end
  | _, _ => None
  end.

(** An rrset decides the answer loop when it is a CNAME rrset or an rrset
    of the requested type. *)
Definition decides `{NameLib} (qtype : RdType) (rrset : RRset) : bool :=
  (rdtype rrset =? rdatatype.CNAME)%Z || (rdtype rrset =? qtype)%Z.

(** A response that can make the engine call itself: a CNAME rrset in the
    answer, an A rrset in the additional section, or an NS rrset in the
    authority section. *)
Definition referring `{NameLib} (response : Response) : bool :=
  existsb (fun rrset => (rdtype rrset =? rdatatype.CNAME)%Z) (answer response)
  || existsb (fun rrset => (rdtype rrset =? rdatatype.A)%Z) (additional response)
  || existsb (fun rrset => (rdtype rrset =? rdatatype.NS)%Z) (authority response).

(** The engine called with the root servers, whatever set it is given. *)
Definition at_root `{Network}
           (self : Name -> RdType -> list Server -> M Response)
  : Name -> RdType -> list Server -> M Response :=
  fun qname qtype _ => self qname qtype ROOT_SERVERS.

(** The answer section of [response] has an rrset of type [qtype]. *)
Definition answers_type `{NameLib} (qtype : RdType) (response : Response) : Prop :=
  exists rrset, In rrset (answer response) /\ rdtype rrset = qtype.

(** The failure of the specification for a step whose servers are
    exhausted: [NoRecordError] when a server responded, else the
    [TimeoutError] of the last server that timed out, else the generic
    [DNSResolutionError]. *)
Definition exhaustion_failure `{NameLib} (qname : Name) (servers : list Server)
           (replies : list Reply) : Exn :=
  if existsb is_received replies then
    NoRecordError ("No A or NS records found for " ++ to_text qname)
  else
    match last_timed_out servers replies with
    | Some ns =>
        TimeoutError ("DNS query timed out for " ++ to_text qname
                        ++ " at server " ++ ns)
    | None =>
        DNSResolutionError ("Unable to resolve domain " ++ to_text qname
                              ++ ": all nameservers failed")
    end.

(** [asked self qname qtype tried ns w response w1]: the loop over
    [tried ++ ns :: _], started in world [w], went through [tried] without
    leaving the function, then sent the query to [ns] and received
    [response], which left the world [w1]. *)
Definition asked `{Network} (self : Name -> RdType -> list Server -> M Response)
           (qname : Name) (qtype : RdType) (tried : list Server) (ns : Server)
           (w : World) (response : Response) (w1 : World) : Prop :=
  exists replies lt sr w0,
    loop_runs self qname qtype tried (None, 0, w) replies (lt, sr, w0)
    /\ udp qname qtype ns w0 = (Received response, w1).

(** [nxdomain_from fuel qname qtype nameservers w msg w']: in the run of
    [_iterative_resolve qname qtype nameservers] from world [w], a server
    answers with status NXDOMAIN in a call that the run has reached through
    CNAME chases, glue hops and hops to resolved name servers only; [msg]
    is the message of the [NXDomainError] made there and [w'] the world
    just after that reply. *)
Inductive nxdomain_from `{Network}
  : nat -> Name -> RdType -> list Server -> World -> string -> World -> Prop :=
| nx_here fuel qname qtype tried ns rest w response w1 :
    asked (_iterative_resolve fuel) qname qtype tried ns w response w1 ->
    rcode_of response = rcode.NXDOMAIN ->
    nxdomain_from (S fuel) qname qtype (tried ++ ns :: rest) w
      ("Domain " ++ to_text qname ++ " does not exist (NXDOMAIN)") w1
| nx_cname fuel qname qtype tried ns rest w response w1
           rrset cname_target more msg w' :
    asked (_iterative_resolve fuel) qname qtype tried ns w response w1 ->
    rcode_of response <> rcode.NXDOMAIN ->
    find (decides qtype) (answer response) = Some rrset ->
    rdtype rrset = rdatatype.CNAME ->
    targets_of rrset = cname_target :: more ->
    nxdomain_from fuel cname_target qtype ROOT_SERVERS w1 msg w' ->
    nxdomain_from (S fuel) qname qtype (tried ++ ns :: rest) w msg w'
| nx_glue fuel qname qtype tried ns rest w response w1 next_servers msg w' :
    asked (_iterative_resolve fuel) qname qtype tried ns w response w1 ->
    rcode_of response <> rcode.NXDOMAIN ->
    find (decides qtype) (answer response) = None ->
    extend_addresses (additional response) [] = next_servers ->
    next_servers <> [] ->
    nxdomain_from fuel qname qtype next_servers w1 msg w' ->
    nxdomain_from (S fuel) qname qtype (tried ++ ns :: rest) w msg w'
| nx_referral fuel qname qtype tried ns rest w response w1
              ns_names next_servers w2 msg w' :
    asked (_iterative_resolve fuel) qname qtype tried ns w response w1 ->
    rcode_of response <> rcode.NXDOMAIN ->
    find (decides qtype) (answer response) = None ->
    extend_addresses (additional response) [] = [] ->
    authority_loop qname qtype (authority response) [] false = Return ns_names ->
    ns_loop (_iterative_resolve fuel) ns_names [] w1 = Some (next_servers, w2) ->
    next_servers <> [] ->
    nxdomain_from fuel qname qtype next_servers w2 msg w' ->
    nxdomain_from (S fuel) qname qtype (tried ++ ns :: rest) w msg w'.

(** The four exception classes of the resolver, as opposed to the
    exceptions of the interpreter and of the DNS library. *)
Definition classified (e : Exn) : Prop :=
  match e with
  | PyException _ => False
  | _ => True
  end.

(** ** Worked networks *)

(** Names as their text. *)
Definition text_names : NameLib :=
  {| Name := string; from_text := fun s => Some s; to_text := fun s => s |}.

Definition Query : Type := string * RdType * Server.

Section Fixtures.
#[local] Existing Instance text_names.

(** A network that answers by a fixed script and keeps the log of the
    queries it was sent. *)
Definition scripted (script : string -> RdType -> Server -> Reply) : Network :=
  {| World := list Query;
     udp := fun qname qtype ns log =>
              (script qname qtype ns, log ++ [(qname, qtype, ns)]) |}.

Definition no_error (an au ad : list RRset) : Response :=
  {| rcode_of := rcode.NOERROR; answer := an; authority := au; additional := ad |}.

Definition rr_A (owner : string) (seconds : Z) (addrs : list Server) : RRset :=
  mkRRset owner seconds (A_rdatas addrs).
Definition rr_NS (owner : string) (targets : list string) : RRset :=
  mkRRset owner 172800%Z (NS_rdatas targets).
Definition rr_CNAME (owner target : string) : RRset :=
  mkRRset owner 300%Z (CNAME_rdatas [target]).
Definition rr_SOA (owner : string) : RRset :=
  mkRRset owner 900%Z (other_rdatas rdatatype.SOA).

(** A delegation with glue. *)
Definition referral (zone ns_name : string) (addr : Server) : Response :=
  no_error [] [rr_NS zone [ns_name]] [rr_A ns_name 172800%Z [addr]].

(** The scenario of the specification: the root refers to the servers of
    com., these to the servers of example.com., which answer. *)
Definition example_com_answer : Response :=
  no_error [rr_A "example.com." 300%Z ["93.184.216.34"%string]] [] [].

Definition example_com (qname : string) (qtype : RdType) (ns : Server) : Reply :=
  if (ns =? "198.41.0.4")%string then
    Received (referral "com." "a.gtld-servers.net." "192.5.6.30")
  else if (ns =? "192.5.6.30")%string then
    Received (referral "example.com." "a.iana-servers.net." "199.43.135.53")
  else if (ns =? "199.43.135.53")%string then
    Received example_com_answer
  else Timeout.

(** Two names that are CNAMEs of each other. *)
Definition cname_cycle (qname : string) (qtype : RdType) (ns : Server) : Reply :=
  if (qname =? "a.example.")%string
  then Received (no_error [rr_CNAME "a.example." "b.example."] [] [])
  else Received (no_error [rr_CNAME qname "a.example."] [] []).

(** An answer with the CNAME rrset first and the address of the target
    after it; the target is served by nobody. *)
Definition cname_with_address : Response :=
  no_error [rr_CNAME "www.example.com." "host.example.net.";
            rr_A "host.example.net." 300%Z ["192.0.2.1"%string]] [] [].

Definition cname_first (qname : string) (qtype : RdType) (ns : Server) : Reply :=
  if (qname =? "www.example.com.")%string
  then Received cname_with_address
  else Timeout.

(** An authority section with the SOA rrset before the NS rrset. *)
Definition soa_then_ns : Response :=
  no_error [] [rr_SOA "example.com."; rr_NS "example.com." ["ns1.example.com."%string]] [].

Definition soa_first (qname : string) (qtype : RdType) (ns : Server) : Reply :=
  Received soa_then_ns.

(** A delegation with glue, then a CNAME, then a name that does not
    exist. *)
Definition nxdomain_response : Response :=
  {| rcode_of := rcode.NXDOMAIN; answer := [];
     authority := [rr_SOA "example."]; additional := [] |}.

Definition dangling_alias (qname : string) (qtype : RdType) (ns : Server) : Reply :=
  if (qname =? "gone.example.")%string then Received nxdomain_response
  else if (ns =? "192.0.2.53")%string
  then Received (no_error [rr_CNAME "alias.example." "gone.example."] [] [])
  else Received (referral "example." "ns.example." "192.0.2.53").

(** A delegation without glue to name servers that nobody serves. *)
Definition lame_delegation (qname : string) (qtype : RdType) (ns : Server) : Reply :=
  if (qname =? "example.org.")%string
  then Received (no_error [] [rr_NS "example.org." ["ns1.example.net."; "ns2.example.net."]%string] [])
  else Timeout.

(** Servers that do not answer: the second one fails otherwise. *)
Definition silent (qname : string) (qtype : RdType) (ns : Server) : Reply :=
  if (ns =? "192.0.2.2")%string then OtherError else Timeout.

(** The first server responds with nothing to act on, the others do not
    answer. *)
Definition unhelpful (qname : string) (qtype : RdType) (ns : Server) : Reply :=
  if (ns =? "192.0.2.1")%string then Received (no_error [] [] []) else Timeout.



(** A network with a budget of referring responses: it answers with a
    CNAME as long as the budget lasts, and with the address after. *)
Definition draining : Network :=
  {| World := nat;
     udp := fun qname qtype ns budget =>
              match budget with
              | O => (Received example_com_answer, O)
              | S budget' =>
                  (Received (no_error [rr_CNAME qname "example.com."] [] []), budget')
              end |}.
End Fixtures.

(** ** Observing the engine *)

(** The world after one query for [qname], [qtype] to each server of the
    list, in order, and nothing else. *)
Definition ask_all `{Network} (qname : Name) (qtype : RdType)
           (servers : list Server) (w : World) : World :=
  fold_left (fun w0 ns => snd (udp qname qtype ns w0)) servers w.

(** A callee that does not come back from a call with an empty server
    set. *)
Definition on_nonempty `{Network}
           (self : Name -> RdType -> list Server -> M Response)
  : Name -> RdType -> list Server -> M Response :=
  fun qname qtype servers =>
    match servers with
    | [] => fun _ => None
    | _ :: _ => self qname qtype servers
    end.

(** The NS names that the authority loop gathers when it does not raise:
    the targets of the NS rrsets, in the order of the section. *)
Definition ns_targets `{NameLib} (rrsets : list RRset) : list string :=
  flat_map (fun rrset => map to_text (targets_of rrset))
           (filter (fun rrset => (rdtype rrset =? rdatatype.NS)%Z) rrsets).

Section Leaving.
Context `{Net : Network}.
Variable self : Name -> RdType -> list Server -> M Response.

(** [leaves qname qtype response w out w']: the body, run on [response]
    in world [w], ends with [out] in world [w'] because the status is
    NXDOMAIN, or because an rrset of the answer section decides, or because
    it returns what a call to the engine on glue or on resolved name
    servers gives. *)
Inductive leaves (qname : Name) (qtype : RdType) (response : Response)
          (w : World) : Res (option Response) -> World -> Prop :=
| leaves_nxdomain :
    rcode_of response = rcode.NXDOMAIN ->
    leaves qname qtype response w
      (Raise (NXDomainError
                ("Domain " ++ to_text qname ++ " does not exist (NXDOMAIN)"))) w
| leaves_answer rrset :
    rcode_of response <> rcode.NXDOMAIN ->
    find (decides qtype) (answer response) = Some rrset ->
    rdtype rrset <> rdatatype.CNAME ->
    leaves qname qtype response w (Return (Some response)) w
| leaves_cname rrset cname_target more out w' :
    rcode_of response <> rcode.NXDOMAIN ->
    find (decides qtype) (answer response) = Some rrset ->
    rdtype rrset = rdatatype.CNAME ->
    targets_of rrset = cname_target :: more ->
    return_call (self cname_target qtype ROOT_SERVERS) w = Some (out, w') ->
    leaves qname qtype response w out w'
| leaves_glue next_servers out w' :
    rcode_of response <> rcode.NXDOMAIN ->
    find (decides qtype) (answer response) = None ->
    extend_addresses (additional response) [] = next_servers ->
    next_servers <> [] ->
    return_call (self qname qtype next_servers) w = Some (out, w') ->
    leaves qname qtype response w out w'
| leaves_referral ns_names next_servers w2 out w' :
    rcode_of response <> rcode.NXDOMAIN ->
    find (decides qtype) (answer response) = None ->
    extend_addresses (additional response) [] = [] ->
    authority_loop qname qtype (authority response) [] false = Return ns_names ->
    ns_loop self ns_names [] w = Some (next_servers, w2) ->
    next_servers <> [] ->
    return_call (self qname qtype next_servers) w2 = Some (out, w') ->
    leaves qname qtype response w out w'.

End Leaving.

(** An exchange: the query that was sent and what came back. *)
Definition Exchange `{NameLib} : Type := (Name * RdType * Server * Reply)%type.

(** A network that also keeps the log of its exchanges, in the order of
    the queries. *)
Definition logged `{L : NameLib} (N : Network) : Network :=
  {| World := (@World L N * list Exchange)%type;
     udp := fun qname qtype ns wl =>
              (fst (@udp L N qname qtype ns (fst wl)),
               (snd (@udp L N qname qtype ns (fst wl)),
                snd wl ++ [(qname, qtype, ns,
                            fst (@udp L N qname qtype ns (fst wl)))])) |}.

(** The addresses that a reply makes known: those of the A rrsets of its
    answer section and of its additional section. *)
Definition learned `{NameLib} (exchange : Exchange) : list Server :=
  match snd exchange with
  | Received response =>
      extend_addresses (answer response) []
        ++ extend_addresses (additional response) []
  | _ => []
  end.

(** All that the replies of a log make known. *)
Definition learned_all `{NameLib} (log : list Exchange) : list Server :=
  flat_map learned log.

(** [referred known log]: every query of [log] went to a server of [known]
    or to an address that an earlier reply of [log] made known. *)
Fixpoint referred `{NameLib} (known : list Server) (log : list Exchange) : Prop :=
  match log with
  | [] => True
  | exchange :: rest =>
      In (snd (fst exchange)) known
      /\ referred (known ++ learned exchange) rest
  end.

(** The query of an exchange is of the type [qtype] or of the type A. *)
Definition type_ok `{NameLib} (qtype : RdType) (x : Exchange) : Prop :=
  snd (fst (fst x)) = qtype \/ snd (fst (fst x)) = rdatatype.A.

(** [logs_well qtype servers log outcome log']: a call for the type
    [qtype] on [servers] has made the log grow from [log] to [log'] by
    exchanges whose queries are of the type [qtype] or A and go to servers
    of [servers], to root servers or to addresses made known before; a
    returned response is the last reply. *)
Definition logs_well `{NameLib} (qtype : RdType) (servers : list Server)
           (log : list Exchange) (outcome : Res Response)
           (log' : list Exchange) : Prop :=
  exists new,
    log' = log ++ new
    /\ Forall (type_ok qtype) new
    /\ (forall known,
           incl ROOT_SERVERS known -> incl servers known -> referred known new)
    /\ (forall r, outcome = Return r ->
                  exists old qname ns, new = old ++ [(qname, qtype, ns, Received r)]).

(** A run in the network with the log, the log left out. *)
Definition erase `{L : NameLib} {N : Network} {A : Type}
           (run : option (A * (@World L N * list Exchange)))
  : option (A * @World L N) :=
  match run with
  | None => None
  | Some (a, wl) => Some (a, fst wl)
  end.

(** ** The report and the command line *)

(** Texts are sequences of characters: [String.length] is [len], for the
    texts whose characters are those of the type [ascii]. *)

(** [str(n)] for an integer. *)
Definition str_int (n : Z) : string := NilZero.string_of_int (Z.to_int n).

(** [' ' * n]: nothing when [n] is not positive. *)
Fixpoint replicate (n : nat) (c : ascii) : string :=
  match n with
  | O => EmptyString
  | S n' => String c (replicate n' c)
  end.

Definition spaces (n : Z) : string := replicate (Z.to_nat n) " "%char.

(** [f"{s:<width}"]: [s] with spaces added on the right up to [width]. *)
Definition ljust (s : string) (width : nat) : string :=
  (s ++ replicate (width - String.length s) " "%char)%string.

(** Truth value of a Python string. *)
Definition nonempty (s : string) : bool :=
  match s with
  | EmptyString => false
  | String _ _ => true
  end.

Definition newline : string := String (ascii_of_nat 10) EmptyString.

(** The clock: [time.time()] gives a [Time], and [msec_between start now]
    is [int((now - start) * 1000)]. *)
Class Clock := {
  Time : Type;
  msec_between : Time -> Time -> Z
}.

(** The resolver object: [self.query_start_time]. *)
Record DNSQuestResolver `{Clock} := mkResolver {
  query_start_time : option Time
}.

(** [DNSQuestResolver.__init__] *)
Definition __init__ `{Clock} : DNSQuestResolver :=
  {| query_start_time := None |}.

(** [DNSQuestResolver.resolve] on the object: the clock is read first. *)
Definition resolve_method `{Network} `{Clock} (fuel : nat)
           (self : DNSQuestResolver) (now : Time) (domain : string)
  : World -> option (Res Response * DNSQuestResolver * World) :=
  fun w =>
    let self' := {| query_start_time := Some now |} in
    match resolve fuel domain w with
    | None => None
    | Some (outcome, w') => Some (outcome, self', w')
    end.

(** Lines 199-207 of [format_output]: the first address of the first A
    rrset, with the TTL of that rrset. *)
Fixpoint final_record `{NameLib} (rrsets : list RRset) : option (Server * Z) :=
  match rrsets with
  | [] => None
  | rrset :: rest =>
      if (rdtype rrset =? rdatatype.A)%Z then
        match addresses_of rrset with
        | [] => None
        | address :: _ => Some (address, ttl rrset)
        end
      else final_record rest
  end.

(** Line 194. *)
Definition question_line (domain : string) : string :=
  (ljust domain 32 ++ " IN      A")%string.

(** Lines 211-215. *)
Definition answer_line (domain : string) (final_ttl : Z) (final_ip : Server)
  : string :=
  let ttl_str := str_int final_ttl in
  let spaces_needed :=
    (32 - Z.of_nat (String.length domain) - Z.of_nat (String.length ttl_str) - 3)%Z in
  (domain ++ spaces spaces_needed ++ str_int final_ttl
     ++ "    IN      A       " ++ final_ip)%string.

(** Lines 188-221 of [format_output]: the list [output], when the answer
    section is not empty.  [now] is the reading of [time.time()] and
    [current_time] the text of [datetime.datetime.now()]; the subtraction
    raises [TypeError] when [query_start_time] is [None]. *)
Definition output_lines `{NameLib} `{Clock} (self : DNSQuestResolver)
           (now : Time) (current_time : string) (domain : string)
           (response : Response) : Res (list string) :=
  let domain := qualify domain in
  let output := ["QUESTION SECTION:"; question_line domain; "";
                 "ANSWER SECTION:"]%string in
  let output :=
    match final_record (answer response) with
    | Some (final_ip, final_ttl) =>
        if nonempty final_ip
        then output ++ [answer_line domain final_ttl final_ip]
        else output
    | None => output
    end in
  let output := output ++ [""%string] in
  match query_start_time self with
  | None => Raise (PyException "TypeError")
  | Some start =>
      let query_time := msec_between start now in
      let output :=
        output ++ [("Query time: " ++ str_int query_time ++ " msec")%string] in
      let output := output ++ [("WHEN: " ++ current_time)%string] in
      Return output
  end.

(** [DNSQuestResolver.format_output] *)
Definition format_output `{NameLib} `{Clock} (self : DNSQuestResolver)
           (now : Time) (current_time : string) (domain : string)
           (response : option Response) : Res string :=
  match response with
  | None => Return ("No answer found for " ++ domain)%string
  | Some response =>
      if truthy (answer response) then
        match output_lines self now current_time domain response with
        | Return output => Return (String.concat newline output)
        | Raise e => Raise e
        end
      else Return ("No answer found for " ++ domain)%string
  end.

(** What the clock gives during one run of [main]: the reading in
    [resolve], the reading in [format_output], and the text of the date. *)
Record Readings `{Clock} := mkReadings {
  resolve_time : Time;
  format_time : Time;
  format_date : string
}.

(** The [except] clauses of [main]: the line that is printed.  For an
    exception of the interpreter or of the DNS library, the text after the
    prefix is the tag that stands for it here. *)
Definition error_line (e : Exn) : string :=
  match e with
  | NXDomainError m => "NXDOMAIN Error: " ++ m
  | TimeoutError m => "Timeout Error: " ++ m
  | NoRecordError m => "No Record Error: " ++ m
  | DNSResolutionError m => "DNS Resolution Error: " ++ m
  | PyException m => "Unexpected Error: " ++ m
  end%string.

(** [main] of [__main__.py]: the lines printed and the exit status (0 when
    [main] returns, 1 for [sys.exit(1)]). *)
Definition main `{Network} `{Clock} (fuel : nat) (argv : list string)
           (clock : Readings) : World -> option (list string * Z * World) :=
  match argv with
  | [_; domain] =>
      fun w =>
        let resolver := __init__ in
        match resolve_method fuel resolver (resolve_time clock) domain w with
        | None => None
        | Some (Return response, resolver, w') =>
            match format_output resolver (format_time clock) (format_date clock)
                    domain (Some response) with
            | Return text => Some ([text], 0%Z, w')
            | Raise e => Some ([error_line e], 1%Z, w')
            end
        | Some (Raise e, _, w') => Some ([error_line e], 1%Z, w')
        end
  | _ =>
      fun w =>
        Some (["Usage: python -m dnsquest <domain>";
               "   or: dnsquest <domain>"]%string, 1%Z, w)
  end.

(** A clock that counts milliseconds. *)
Definition msec_clock : Clock :=
  {| Time := Z; msec_between := fun start now => (now - start)%Z |}.

(** Names as their text, for a library that refuses empty labels. *)
Fixpoint has_empty_label (s : string) : bool :=
  match s with
  | String "." (String "." _ as rest) => true
  | String _ rest => has_empty_label rest
  | EmptyString => false
  end.

Definition checked_names : NameLib :=
  {| Name := string;
     from_text := fun s => if has_empty_label s then None else Some s;
     to_text := fun s => s |}.

(** A network where no server can be reached. *)
Definition unreachable : @Network checked_names :=
  {| World := nat;
     udp := fun _ _ _ queries => (OtherError, S queries) |}.

(** ** Proof tools *)

(** Case analysis on the scrutinee of the first [match] or [if] of a
    hypothesis. *)
Ltac split_match_in H :=
  match type of H with
  | context [match ?x with _ => _ end] => destruct x eqn:?
  | context [if ?x then _ else _] => destruct x eqn:?
  end.

Ltac inv H := inversion H; subst; clear H.

(** ** Trailing dot *)

Lemma endswith_append_dot (d : string) : endswith (d ++ ".") "." = true.
Proof.
  induction d as [|c d IH].
  - reflexivity.
  - change (String c d ++ ".")%string with (String c (d ++ ".")).
    cbn [endswith]. destruct (String.eqb _ _); [reflexivity|exact IH].
Qed.

Lemma qualify_append_dot (d : string) :
  endswith d "." = false -> qualify (d ++ ".") = qualify d.
Proof.
  intros Hd. unfold qualify. rewrite endswith_append_dot, Hd. reflexivity.
Qed.

(** C9.  For a domain [d] that does not end in a dot, [resolve d] and
    [resolve (d + ".")] parse the same text into the query name, and in the
    same world they are the same run: same outcome, same final world (for a
    world that keeps the log of the queries, the same queries). *)
Theorem resolve_trailing_dot `{Network} (fuel : nat) (d : string) (w : World) :
  endswith d "." = false ->
  qualify d = (d ++ ".")%string
  /\ qualify (d ++ ".") = (d ++ ".")%string
  /\ resolve fuel (d ++ ".") w = resolve fuel d w.
Proof.
  intros Hd. split; [|split].
  - unfold qualify. now rewrite Hd.
  - unfold qualify. now rewrite endswith_append_dot.
  - unfold resolve. now rewrite (qualify_append_dot d Hd).
Qed.

Lemma resolve_trailing_dot_witness :
  endswith "example.com" "." = false
  /\ @resolve text_names (scripted example_com) 3 "example.com." []
     = @resolve text_names (scripted example_com) 3 "example.com" []
  /\ @resolve text_names (scripted example_com) 3 "example.com" []
     = Some (Return example_com_answer,
             [("example.com.", rdatatype.A, "198.41.0.4");
              ("example.com.", rdatatype.A, "192.5.6.30");
              ("example.com.", rdatatype.A, "199.43.135.53")]%string).
Proof.
  split; [reflexivity|]. split.
  - apply (@resolve_trailing_dot text_names (scripted example_com) 3
             "example.com" []). reflexivity.
  - vm_compute. reflexivity.
Defined.

(** ** Success *)

Section Success.
Context `{Net : Network}.
Variable self : Name -> RdType -> list Server -> M Response.
Variable qtype : RdType.
Hypothesis self_answers :
  forall qname servers w r w',
    self qname qtype servers w = Some (Return r, w') -> answers_type qtype r.

Lemma return_call_answers qname servers w r w' :
  return_call (self qname qtype servers) w = Some (Return (Some r), w') ->
  answers_type qtype r.
Proof.
  unfold return_call. intros Hc.
  destruct (self qname qtype servers w) as [[[r0|e] w0]|] eqn:Hs;
    try discriminate.
  inv Hc. eauto.
Qed.

Lemma answer_loop_answers response rrsets w r w' :
  incl rrsets (answer response) ->
  answer_loop self qtype response rrsets w = Some (Return (Some r), w') ->
  answers_type qtype r.
Proof.
  induction rrsets as [|rrset rest IH]; simpl; intros Hin Hl.
  - discriminate.
  - destruct (rdtype rrset =? rdatatype.CNAME)%Z eqn:Hc.
    + destruct (targets_of rrset); [discriminate|].
      eapply return_call_answers; eauto.
    + destruct (rdtype rrset =? qtype)%Z eqn:Hq.
      * inv Hl. exists rrset. split.
        -- apply Hin. now left.
        -- now apply Z.eqb_eq.
      * apply IH; auto. intros x Hx. apply Hin. now right.
Qed.

Lemma follow_authority_answers qname response w r w' :
  follow_authority self qname qtype response w = Some (Return (Some r), w') ->
  answers_type qtype r.
Proof.
  unfold follow_authority. intros Hf.
  repeat (split_match_in Hf; try discriminate).
  eapply return_call_answers; eauto.
Qed.

Lemma follow_additional_answers qname response w r w' :
  follow_additional self qname qtype response w = Some (Return (Some r), w') ->
  answers_type qtype r.
Proof.
  unfold follow_additional. intros Hf.
  repeat (split_match_in Hf; try discriminate);
    eauto using return_call_answers, follow_authority_answers.
Qed.

Lemma on_response_answers qname response w r w' :
  on_response self qname qtype response w = Some (Return (Some r), w') ->
  answers_type qtype r.
Proof.
  unfold on_response. intros Ho.
  destruct (rcode_of response =? rcode.NXDOMAIN)%Z; [discriminate|].
  destruct (truthy (answer response)).
  - destruct (answer_loop self qtype response (answer response) w)
      as [[[[r0|]|e] w0]|] eqn:Ha; try discriminate.
    + inv Ho. eapply answer_loop_answers; eauto. apply incl_refl.
    + eauto using follow_additional_answers.
  - eauto using follow_additional_answers.
Qed.

Lemma try_server_answers qname ns lt sr w r w' :
  try_server self qname qtype ns lt sr w = Some (Break (Return r), w') ->
  answers_type qtype r.
Proof.
  unfold try_server. intros Ht.
  destruct (udp qname qtype ns w) as [[response| |] w1]; try discriminate.
  destruct (on_response self qname qtype response w1)
    as [[[[r0|]|e] w2]|] eqn:Ho; try discriminate.
  - inv Ht. eauto using on_response_answers.
  - destruct e; discriminate.
Qed.

Lemma for_ns_answers qname nameservers lt sr w r w' :
  for_ns self qname qtype nameservers lt sr w = Some (Return r, w') ->
  answers_type qtype r.
Proof.
  revert lt sr w.
  induction nameservers as [|ns rest IH]; simpl; intros lt sr w Hf.
  - discriminate.
  - destruct (try_server self qname qtype ns lt sr w)
      as [[[outcome|lt1 sr1] w1]|] eqn:Ht; try discriminate.
    + inv Hf. eauto using try_server_answers.
    + eauto.
Qed.
End Success.

Lemma iterative_resolve_answers `{Network} (fuel : nat) :
  forall qname qtype nameservers w r w',
    _iterative_resolve fuel qname qtype nameservers w = Some (Return r, w') ->
    answers_type qtype r.
Proof.
  induction fuel as [|fuel IH]; simpl; intros qname qtype nameservers w r w' Hr.
  - discriminate.
  - eapply for_ns_answers; [|exact Hr]. intros; eapply IH; eauto.
Qed.

(** C10.  A response that [_iterative_resolve] returns has, in its answer
    section, an rrset of the requested type; a response that [resolve]
    returns has an A rrset in its answer section. *)
Theorem success_answers_requested_type `{Network} (fuel : nat) :
  (forall qname qtype nameservers w r w',
      _iterative_resolve fuel qname qtype nameservers w = Some (Return r, w') ->
      answers_type qtype r)
  /\ (forall domain w r w',
         resolve fuel domain w = Some (Return r, w') ->
         answers_type rdatatype.A r).
Proof.
  split.
  - apply iterative_resolve_answers.
  - unfold resolve. intros domain w r w' Hr.
    destruct (from_text (qualify domain)) as [domain_name|]; [|discriminate].
    destruct (_iterative_resolve fuel domain_name rdatatype.A ROOT_SERVERS w)
      as [[[r0|e] w0]|] eqn:He; try discriminate.
    + inv Hr. eapply iterative_resolve_answers; eauto.
    + destruct e; discriminate.
Qed.

Lemma success_answers_requested_type_witness :
  @resolve text_names (scripted example_com) 3 "example.com" []
  = Some (Return example_com_answer,
          [("example.com.", rdatatype.A, "198.41.0.4");
           ("example.com.", rdatatype.A, "192.5.6.30");
           ("example.com.", rdatatype.A, "199.43.135.53")]%string)
  /\ @answers_type text_names rdatatype.A example_com_answer.
Proof.
  assert (Hrun : @resolve text_names (scripted example_com) 3 "example.com" []
                 = Some (Return example_com_answer,
                         [("example.com.", rdatatype.A, "198.41.0.4");
                          ("example.com.", rdatatype.A, "192.5.6.30");
                          ("example.com.", rdatatype.A, "199.43.135.53")]%string))
    by (vm_compute; reflexivity).
  split; [exact Hrun|].
  exact (proj2 (@success_answers_requested_type text_names (scripted example_com) 3)
               _ _ _ _ Hrun).
Defined.

(** ** How a response is classified *)

Lemma truthy_false {A : Type} (l : list A) : truthy l = false -> l = [].
Proof. destruct l; [reflexivity|discriminate]. Qed.

Lemma truthy_true {A : Type} (l : list A) : l <> [] -> truthy l = true.
Proof. destruct l; [congruence|reflexivity]. Qed.

Section Classification.
Context `{Net : Network}.
Variable self : Name -> RdType -> list Server -> M Response.

(** The answer loop stops at the first rrset that decides. *)
Lemma answer_loop_find qtype response rrsets w :
  answer_loop self qtype response rrsets w =
  match find (decides qtype) rrsets with
  | None => Some (Return None, w)
  | Some rrset =>
      if (rdtype rrset =? rdatatype.CNAME)%Z then
        match targets_of rrset with
        | [] => Some (Raise (PyException "IndexError"), w)
        | cname_target :: _ =>
            return_call (self cname_target qtype ROOT_SERVERS) w
        end
      else Some (Return (Some response), w)
  end.
Proof.
  induction rrsets as [|rrset rest IH]; simpl; [reflexivity|].
  unfold decides.
  destruct (rdtype rrset =? rdatatype.CNAME)%Z eqn:Hc; simpl.
  - rewrite Hc. destruct (targets_of rrset); reflexivity.
  - destruct (rdtype rrset =? qtype)%Z eqn:Hq; [|exact IH].
    rewrite Hc. reflexivity.
Qed.

Lemma on_response_nxdomain qname qtype response w :
  rcode_of response = rcode.NXDOMAIN ->
  on_response self qname qtype response w =
  Some (Raise (NXDomainError
          ("Domain " ++ to_text qname ++ " does not exist (NXDOMAIN)")), w).
Proof.
  intros Hr. unfold on_response. rewrite Hr. reflexivity.
Qed.

Lemma on_response_decided qname qtype response rrset w :
  rcode_of response <> rcode.NXDOMAIN ->
  find (decides qtype) (answer response) = Some rrset ->
  on_response self qname qtype response w =
  if (rdtype rrset =? rdatatype.CNAME)%Z then
    match targets_of rrset with
    | [] => Some (Raise (PyException "IndexError"), w)
    | cname_target :: _ =>
        return_call (self cname_target qtype ROOT_SERVERS) w
    end
  else Some (Return (Some response), w).
Proof.
  intros Hr Hf. unfold on_response.
  apply Z.eqb_neq in Hr. rewrite Hr.
  destruct (answer response) as [|x l] eqn:Ha; [discriminate|].
  cbn [truthy]. rewrite answer_loop_find, Hf.
  destruct (rdtype rrset =? rdatatype.CNAME)%Z; [|reflexivity].
  destruct (targets_of rrset) as [|t ts]; [reflexivity|].
  unfold return_call.
  destruct (self t qtype ROOT_SERVERS w) as [[[r|e] w0]|]; reflexivity.
Qed.

Lemma on_response_undecided qname qtype response w :
  rcode_of response <> rcode.NXDOMAIN ->
  find (decides qtype) (answer response) = None ->
  on_response self qname qtype response w =
  follow_additional self qname qtype response w.
Proof.
  intros Hr Hf. unfold on_response.
  apply Z.eqb_neq in Hr. rewrite Hr.
  destruct (truthy (answer response)); [|reflexivity].
  rewrite answer_loop_find, Hf. reflexivity.
Qed.

Lemma follow_additional_glue qname qtype response w :
  extend_addresses (additional response) [] <> [] ->
  follow_additional self qname qtype response w =
  return_call
    (self qname qtype (extend_addresses (additional response) [])) w.
Proof.
  intros Hn. unfold follow_additional.
  destruct (additional response) as [|x l] eqn:Ha; [now elim Hn|].
  cbn [truthy]. rewrite (truthy_true _ Hn). reflexivity.
Qed.

Lemma follow_additional_no_glue qname qtype response w :
  extend_addresses (additional response) [] = [] ->
  follow_additional self qname qtype response w =
  follow_authority self qname qtype response w.
Proof.
  intros Hn. unfold follow_additional. rewrite Hn.
  destruct (truthy (additional response)); reflexivity.
Qed.

Lemma follow_authority_referral qname qtype response ns_names w :
  authority_loop qname qtype (authority response) [] false = Return ns_names ->
  ns_names <> [] ->
  follow_authority self qname qtype response w =
  match ns_loop self ns_names [] w with
  | None => None
  | Some (next_servers, w') =>
      if truthy next_servers
      then return_call (self qname qtype next_servers) w'
      else Some (Raise (NoRecordError
             ("Found NS records but could not resolve any nameserver IPs for "
                ++ to_text qname)), w')
  end.
Proof.
  intros Ha Hn. unfold follow_authority.
  destruct (authority response) as [|x l] eqn:Hau.
  - simpl in Ha. congruence.
  - cbn [truthy]. rewrite Ha, (truthy_true _ Hn). reflexivity.
Qed.

(** What a turn that goes on has done to the local variables. *)
Lemma try_server_continue qname qtype ns lt sr w lt1 sr1 w1 :
  try_server self qname qtype ns lt sr w = Some (Continue lt1 sr1, w1) ->
  match fst (udp qname qtype ns w) with
  | Received _ => lt1 = lt /\ sr1 = S sr
  | Timeout =>
      lt1 = Some (TimeoutError ("DNS query timed out for " ++ to_text qname
                                  ++ " at server " ++ ns))
      /\ sr1 = sr
  | OtherError => lt1 = lt /\ sr1 = sr
  end.
Proof.
  unfold try_server. intros Ht.
  destruct (udp qname qtype ns w) as [[response| |] w0]; simpl.
  - destruct (on_response self qname qtype response w0)
      as [[[[r|]|e] w2]|]; try discriminate.
    + inv Ht. auto.
    + destruct e; try discriminate; inv Ht; auto.
  - inv Ht. auto.
  - inv Ht. auto.
Qed.

(** The loop over [tried ++ rest], once [tried] is behind. *)
Lemma for_ns_app qname qtype tried rest st replies lt' sr' w' :
  loop_runs self qname qtype tried st replies (lt', sr', w') ->
  for_ns self qname qtype (tried ++ rest) (fst (fst st)) (snd (fst st)) (snd st)
  = for_ns self qname qtype rest lt' sr' w'.
Proof.
  intros Hl. remember (lt', sr', w') as st' eqn:Hst.
  induction Hl as [st|ns tl lt sr w lt1 sr1 w1 replies st' Ht Hl IH]; subst.
  - reflexivity.
  - simpl. rewrite Ht. now apply IH.
Qed.

Lemma for_ns_asked qname qtype tried ns rest w response w1 :
  asked self qname qtype tried ns w response w1 ->
  exists lt sr w0,
    for_ns self qname qtype (tried ++ ns :: rest) None 0 w
    = for_ns self qname qtype (ns :: rest) lt sr w0
    /\ udp qname qtype ns w0 = (Received response, w1).
Proof.
  intros (replies & lt & sr & w0 & Hl & Hu).
  exists lt, sr, w0. split; [|exact Hu].
  exact (for_ns_app qname qtype tried (ns :: rest) (None, 0, w) replies _ _ _ Hl).
Qed.

(** The turn of a server whose response the body leaves the function
    with. *)
Lemma for_ns_break qname qtype ns rest lt sr w response w1 outcome w2 :
  udp qname qtype ns w = (Received response, w1) ->
  on_response self qname qtype response w1 = Some (outcome, w2) ->
  match outcome with
  | Return (Some r) =>
      for_ns self qname qtype (ns :: rest) lt sr w = Some (Return r, w2)
  | Raise (NXDomainError m) =>
      for_ns self qname qtype (ns :: rest) lt sr w
      = Some (Raise (NXDomainError m), w2)
  | Raise (NoRecordError m) =>
      for_ns self qname qtype (ns :: rest) lt sr w
      = Some (Raise (NoRecordError m), w2)
  | _ =>
      for_ns self qname qtype (ns :: rest) lt sr w
      = for_ns self qname qtype rest lt (S sr) w2
  end.
Proof.
  intros Hu Ho. simpl. unfold try_server. rewrite Hu, Ho.
  destruct outcome as [[r|]|e]; try reflexivity.
  destruct e; reflexivity.
Qed.
End Classification.

(** ** Exhausted servers *)

Section Exhaustion.
Context `{Net : Network}.
Variable self : Name -> RdType -> list Server -> M Response.

(** The local variables at the end of a run: the count of the responses,
    and the error of the last timeout. *)
Lemma loop_runs_locals qname qtype servers lt sr w replies lt' sr' w' :
  loop_runs self qname qtype servers (lt, sr, w) replies (lt', sr', w') ->
  sr' = sr + List.length (filter is_received replies)
  /\ lt' = match last_timed_out servers replies with
           | Some ns =>
               Some (TimeoutError ("DNS query timed out for " ++ to_text qname
                                     ++ " at server " ++ ns))
           | None => lt
           end.
Proof.
  revert lt sr w replies.
  induction servers as [|ns rest IH]; intros lt sr w replies Hl.
  - inv Hl. simpl. split; [lia|reflexivity].
  - inv Hl.
    match goal with
    | Ht : try_server _ _ _ _ _ _ _ = _, Hr : loop_runs _ _ _ _ _ _ _ |- _ =>
        apply try_server_continue in Ht; apply IH in Hr;
        destruct Hr as [Hsr Hlt]
    end.
    cbn [last_timed_out filter].
    destruct (fst (udp qname qtype ns w)) as [response| |];
      cbn [is_received List.length];
      match goal with Ht : _ /\ _ |- _ => destruct Ht as [-> ->] end;
      (split; [lia|]);
      destruct (last_timed_out rest _); auto.
Qed.

Lemma loop_runs_timeouts qname qtype servers st replies st' :
  loop_runs self qname qtype servers st replies st' ->
  last_timed_out servers replies = None <-> ~ In Timeout replies.
Proof.
  induction 1 as [st|ns rest lt sr w lt1 sr1 w1 replies st' Ht Hl IH].
  - simpl. tauto.
  - cbn [last_timed_out In].
    destruct (last_timed_out rest replies) as [ns'|].
    + split; [discriminate|]. intros Hn.
      pose proof (proj2 IH (fun Hi => Hn (or_intror Hi))) as Hd.
      discriminate Hd.
    + destruct (fst (udp qname qtype ns w)); split; intros Hn;
        try discriminate; try reflexivity.
      * intros [Hd|Hi]; [discriminate|]. now apply (proj1 IH).
      * elim Hn. now left.
      * intros [Hd|Hi]; [discriminate|]. now apply (proj1 IH).
Qed.

Lemma existsb_received_count (replies : list Reply) :
  existsb is_received replies = (0 <? List.length (filter is_received replies)).
Proof.
  induction replies as [|reply replies IH]; simpl; [reflexivity|].
  destruct (is_received reply); simpl; [reflexivity|exact IH].
Qed.

Lemma for_ns_exhausted qname qtype servers w replies lt sr w' :
  loop_runs self qname qtype servers (None, 0, w) replies (lt, sr, w') ->
  for_ns self qname qtype servers None 0 w
  = Some (Raise (exhaustion_failure qname servers replies), w').
Proof.
  intros Hl.
  pose proof (for_ns_app self qname qtype servers [] _ _ _ _ _ Hl) as Hf.
  rewrite app_nil_r in Hf. cbn [fst snd] in Hf. rewrite Hf.
  apply loop_runs_locals in Hl. destruct Hl as [-> ->].
  cbn [for_ns]. unfold exhausted, exhaustion_failure.
  rewrite existsb_received_count. cbn [Nat.add].
  destruct (List.length (filter is_received replies)) as [|n]; cbn.
  - destruct (last_timed_out servers replies); reflexivity.
  - destruct (last_timed_out servers replies); reflexivity.
Qed.
End Exhaustion.

(** C5.  When the loop has tried every server of the step and no turn was
    decisive, the engine raises one failure, and it is the one the replies
    of the step determine: [NoRecordError] if a server responded; else the
    [TimeoutError] of the last timeout if a query timed out; else the
    generic [DNSResolutionError]. *)
Theorem exhaustion_classified `{Network} (fuel : nat) (qname : Name)
        (qtype : RdType) (servers : list Server) (w : World)
        (replies : list Reply) (lt : option Exn) (sr : nat) (w' : World) :
  loop_runs (_iterative_resolve fuel) qname qtype servers (None, 0, w)
            replies (lt, sr, w') ->
  _iterative_resolve (S fuel) qname qtype servers w
  = Some (Raise (exhaustion_failure qname servers replies), w')
  /\ (last_timed_out servers replies = None <-> ~ In Timeout replies).
Proof.
  intros Hl. split.
  - exact (for_ns_exhausted _ qname qtype servers w replies lt sr w' Hl).
  - eapply loop_runs_timeouts; eauto.
Qed.

Lemma exhaustion_classified_witness :
  @_iterative_resolve text_names (scripted silent) 1 "example.org." rdatatype.A
    ["192.0.2.1"; "192.0.2.2"; "192.0.2.3"]%string []
  = Some (Raise (TimeoutError
                   "DNS query timed out for example.org. at server 192.0.2.3"),
          [("example.org.", rdatatype.A, "192.0.2.1");
           ("example.org.", rdatatype.A, "192.0.2.2");
           ("example.org.", rdatatype.A, "192.0.2.3")]%string)
  /\ @_iterative_resolve text_names (scripted unhelpful) 1 "example.org."
       rdatatype.A ["192.0.2.1"; "192.0.2.2"]%string []
     = Some (Raise (NoRecordError "No A or NS records found for example.org."),
             [("example.org.", rdatatype.A, "192.0.2.1");
              ("example.org.", rdatatype.A, "192.0.2.2")]%string).
Proof.
  split.
  - refine (proj1 (@exhaustion_classified text_names (scripted silent) 0
                     "example.org."%string rdatatype.A
                     ["192.0.2.1"; "192.0.2.2"; "192.0.2.3"]%string []
                     [Timeout; OtherError; Timeout] _ _ _ _)).
    repeat (eapply (@runs_cons text_names (scripted silent)); [reflexivity|]).
    apply runs_nil.
  - refine (proj1 (@exhaustion_classified text_names (scripted unhelpful) 0
                     "example.org."%string rdatatype.A
                     ["192.0.2.1"; "192.0.2.2"]%string []
                     [Received (no_error [] [] []); Timeout] _ _ _ _)).
    repeat (eapply (@runs_cons text_names (scripted unhelpful)); [reflexivity|]).
    apply runs_nil.
Defined.

(** ** NXDOMAIN *)

Lemma return_call_raise `{Network} (call : M Response) w e w' :
  call w = Some (Raise e, w') -> return_call call w = Some (Raise e, w').
Proof. intros Hc. unfold return_call. now rewrite Hc. Qed.

Lemma iterative_resolve_nxdomain `{Network} fuel qname qtype nameservers w msg w' :
  nxdomain_from fuel qname qtype nameservers w msg w' ->
  _iterative_resolve fuel qname qtype nameservers w
  = Some (Raise (NXDomainError msg), w').
Proof.
  induction 1 as
    [fuel qname qtype tried ns rest w response w1 Ha Hr
    |fuel qname qtype tried ns rest w response w1 rrset target more msg w'
       Ha Hr Hf Hc Ht Hn IH
    |fuel qname qtype tried ns rest w response w1 next msg w' Ha Hr Hf He Hne Hn IH
    |fuel qname qtype tried ns rest w response w1 ns_names next w2 msg w'
       Ha Hr Hf He Hau Hns Hne Hn IH];
    cbn [_iterative_resolve];
    destruct (for_ns_asked _ qname qtype tried ns rest w response w1 Ha)
      as (lt & sr & w0 & -> & Hu).
  - exact (for_ns_break _ qname qtype ns rest lt sr w0 response w1 _ _ Hu
             (on_response_nxdomain _ qname qtype response w1 Hr)).
  - refine (for_ns_break _ qname qtype ns rest lt sr w0 response w1
              (Raise (NXDomainError msg)) w' Hu _).
    rewrite (on_response_decided _ qname qtype response rrset w1 Hr Hf), Hc, Ht.
    cbn. now apply return_call_raise.
  - refine (for_ns_break _ qname qtype ns rest lt sr w0 response w1
              (Raise (NXDomainError msg)) w' Hu _).
    rewrite (on_response_undecided _ qname qtype response w1 Hr Hf).
    rewrite follow_additional_glue by now rewrite He.
    rewrite He. now apply return_call_raise.
  - refine (for_ns_break _ qname qtype ns rest lt sr w0 response w1
              (Raise (NXDomainError msg)) w' Hu _).
    rewrite (on_response_undecided _ qname qtype response w1 Hr Hf).
    rewrite (follow_additional_no_glue _ qname qtype response w1 He).
    assert (Hnn : ns_names <> []).
    { intros ->. cbn in Hns. inv Hns. now elim Hne. }
    rewrite (follow_authority_referral _ qname qtype response ns_names w1 Hau Hnn).
    rewrite Hns, (truthy_true _ Hne). now apply return_call_raise.
Qed.

(** C4.  When a server answers with status NXDOMAIN, the call that asked it
    raises [NXDomainError] in the world that reply left (no further server
    is asked), and every call that had reached it through CNAME chases,
    glue hops and hops to resolved name servers raises the same error with
    the same message in the same world; so does [resolve]. *)
Theorem nxdomain_surfaces `{Network} (fuel : nat) (qname : Name) (qtype : RdType)
        (nameservers : list Server) (w : World) (msg : string) (w' : World) :
  nxdomain_from fuel qname qtype nameservers w msg w' ->
  _iterative_resolve fuel qname qtype nameservers w
  = Some (Raise (NXDomainError msg), w')
  /\ (forall domain,
         from_text (qualify domain) = Some qname ->
         qtype = rdatatype.A ->
         nameservers = ROOT_SERVERS ->
         resolve fuel domain w = Some (Raise (NXDomainError msg), w')).
Proof.
  intros Hn. apply iterative_resolve_nxdomain in Hn. split; [exact Hn|].
  intros domain Hd -> ->. unfold resolve. rewrite Hd, Hn. reflexivity.
Qed.

Lemma nxdomain_surfaces_witness :
  @resolve text_names (scripted dangling_alias) 3 "alias.example" []
  = Some (Raise (NXDomainError "Domain gone.example. does not exist (NXDOMAIN)"),
          [("alias.example.", rdatatype.A, "198.41.0.4");
           ("alias.example.", rdatatype.A, "192.0.2.53");
           ("gone.example.", rdatatype.A, "198.41.0.4")]%string).
Proof.
  refine (proj2 (@nxdomain_surfaces text_names (scripted dangling_alias) 3
                   "alias.example."%string rdatatype.A ROOT_SERVERS [] _ _ _)
                "alias.example"%string eq_refl eq_refl eq_refl).
  refine (@nx_glue text_names (scripted dangling_alias) 2 "alias.example."%string
            rdatatype.A [] "198.41.0.4"%string (tl ROOT_SERVERS) []
            (referral "example." "ns.example." "192.0.2.53") _
            ["192.0.2.53"%string] _ _ _ _ _ _ _ _).
  - exists [], None, 0, []. split; [apply runs_nil|reflexivity].
  - discriminate.
  - reflexivity.
  - reflexivity.
  - discriminate.
  - refine (@nx_cname text_names (scripted dangling_alias) 1 "alias.example."%string
              rdatatype.A [] "192.0.2.53"%string [] _
              (no_error [rr_CNAME "alias.example." "gone.example."] [] []) _
              (rr_CNAME "alias.example." "gone.example.") "gone.example."%string []
              _ _ _ _ _ _ _ _).
    + exists [], None, 0,
        [("alias.example.", rdatatype.A, "198.41.0.4")]%string.
      split; [apply runs_nil|reflexivity].
    + discriminate.
    + reflexivity.
    + reflexivity.
    + reflexivity.
    + refine (@nx_here text_names (scripted dangling_alias) 0 "gone.example."%string
                rdatatype.A [] "198.41.0.4"%string (tl ROOT_SERVERS) _
                nxdomain_response _ _ _).
      * exists [], None, 0,
          [("alias.example.", rdatatype.A, "198.41.0.4");
           ("alias.example.", rdatatype.A, "192.0.2.53")]%string.
        split; [apply runs_nil|reflexivity].
      * reflexivity.
Defined.

(** ** Referrals without glue *)

Lemma ns_loop_fail `{Network} self ns_names next_servers w w' :
  ns_fail self ns_names w w' ->
  ns_loop self ns_names next_servers w = Some (next_servers, w').
Proof.
  induction 1 as [w|ns_name rest w w' Hp Hf IH
                 |ns_name rest ns_qname e w w1 w' Hp Hs Hf IH]; cbn [ns_loop].
  - reflexivity.
  - rewrite Hp. exact IH.
  - rewrite Hp, Hs. exact IH.
Qed.

(** C6.  In the referral branch a name-server name whose sub-resolution
    raises (whatever it raises: [NXDomainError], [TimeoutError], ...) adds
    no address; and when, all names tried, no address was gathered, the
    engine raises [NoRecordError], whatever the sub-resolutions raised. *)
Theorem unresolved_referral_is_no_record `{Network} :
  (forall self ns_names next_servers w w',
      ns_fail self ns_names w w' ->
      ns_loop self ns_names next_servers w = Some (next_servers, w'))
  /\ (forall fuel qname qtype tried ns rest w response w1 ns_names w',
         asked (_iterative_resolve fuel) qname qtype tried ns w response w1 ->
         rcode_of response <> rcode.NXDOMAIN ->
         find (decides qtype) (answer response) = None ->
         extend_addresses (additional response) [] = [] ->
         authority_loop qname qtype (authority response) [] false
         = Return ns_names ->
         ns_names <> [] ->
         ns_loop (_iterative_resolve fuel) ns_names [] w1 = Some ([], w') ->
         _iterative_resolve (S fuel) qname qtype (tried ++ ns :: rest) w
         = Some (Raise (NoRecordError
                   ("Found NS records but could not resolve any nameserver IPs for "
                      ++ to_text qname)), w')).
Proof.
  split.
  - intros. now apply ns_loop_fail.
  - intros fuel qname qtype tried ns rest w response w1 ns_names w'
           Ha Hr Hf He Hau Hnn Hns.
    cbn [_iterative_resolve].
    destruct (for_ns_asked _ qname qtype tried ns rest w response w1 Ha)
      as (lt & sr & w0 & -> & Hu).
    refine (for_ns_break _ qname qtype ns rest lt sr w0 response w1
              (Raise (NoRecordError _)) w' Hu _).
    rewrite (on_response_undecided _ qname qtype response w1 Hr Hf).
    rewrite (follow_additional_no_glue _ qname qtype response w1 He).
    rewrite (follow_authority_referral _ qname qtype response ns_names w1 Hau Hnn).
    rewrite Hns. reflexivity.
Qed.

Lemma unresolved_referral_is_no_record_witness :
  @ns_loop text_names (scripted lame_delegation)
     (@_iterative_resolve text_names (scripted lame_delegation) 1)
     ["ns1.example.net."; "ns2.example.net."]%string []
     [("example.org.", rdatatype.A, "198.41.0.4")]%string
  = Some ([], [("example.org.", rdatatype.A, "198.41.0.4")]%string
                ++ map (fun ns => ("ns1.example.net."%string, rdatatype.A, ns))
                       ROOT_SERVERS
                ++ map (fun ns => ("ns2.example.net."%string, rdatatype.A, ns))
                       ROOT_SERVERS)
  /\ @_iterative_resolve text_names (scripted lame_delegation) 2 "example.org."
       rdatatype.A ROOT_SERVERS []
     = Some (Raise (NoRecordError
               "Found NS records but could not resolve any nameserver IPs for example.org."),
             [("example.org.", rdatatype.A, "198.41.0.4")]%string
               ++ map (fun ns => ("ns1.example.net."%string, rdatatype.A, ns))
                      ROOT_SERVERS
               ++ map (fun ns => ("ns2.example.net."%string, rdatatype.A, ns))
                      ROOT_SERVERS).
Proof.
  assert (Hfail :
    @ns_fail text_names (scripted lame_delegation)
      (@_iterative_resolve text_names (scripted lame_delegation) 1)
      ["ns1.example.net."; "ns2.example.net."]%string
      [("example.org.", rdatatype.A, "198.41.0.4")]%string
      ([("example.org.", rdatatype.A, "198.41.0.4")]%string
         ++ map (fun ns => ("ns1.example.net."%string, rdatatype.A, ns))
                ROOT_SERVERS
         ++ map (fun ns => ("ns2.example.net."%string, rdatatype.A, ns))
                ROOT_SERVERS)).
  { eapply (@ns_fail_raise text_names (scripted lame_delegation));
      [reflexivity|vm_compute; reflexivity|].
    eapply (@ns_fail_raise text_names (scripted lame_delegation));
      [reflexivity|vm_compute; reflexivity|].
    apply ns_fail_nil. }
  pose proof (proj1 (@unresolved_referral_is_no_record text_names
                       (scripted lame_delegation)) _ _ [] _ _ Hfail) as Hloop.
  split; [exact Hloop|].
  refine (proj2 (@unresolved_referral_is_no_record text_names
                   (scripted lame_delegation))
                1 "example.org."%string rdatatype.A [] "198.41.0.4"%string
                (tl ROOT_SERVERS) []
                (no_error [] [rr_NS "example.org."
                                 ["ns1.example.net."; "ns2.example.net."]%string] [])
                _ ["ns1.example.net."; "ns2.example.net."]%string _
                _ _ _ _ _ _ Hloop).
  - exists [], None, 0, []. split; [apply runs_nil|reflexivity].
  - discriminate.
  - reflexivity.
  - reflexivity.
  - reflexivity.
  - discriminate.
Defined.

(** ** Fuel *)

(** The fuel only cuts runs: a run that completes is the same with a
    callee that completes more often. *)
Section MoreFuel.
Context `{Net : Network}.
Variables self self' : Name -> RdType -> list Server -> M Response.
Hypothesis self_le :
  forall qname qtype servers w out,
    self qname qtype servers w = Some out ->
    self' qname qtype servers w = Some out.

Lemma return_call_le qname qtype servers w out :
  return_call (self qname qtype servers) w = Some out ->
  return_call (self' qname qtype servers) w = Some out.
Proof.
  unfold return_call. intros Hc.
  destruct (self qname qtype servers w) as [out0|] eqn:Hs; [|discriminate].
  now rewrite (self_le _ _ _ _ _ Hs).
Qed.

Lemma answer_loop_le qtype response rrsets w out :
  answer_loop self qtype response rrsets w = Some out ->
  answer_loop self' qtype response rrsets w = Some out.
Proof.
  rewrite !answer_loop_find.
  destruct (find (decides qtype) rrsets) as [rrset|]; [|auto].
  destruct (rdtype rrset =? rdatatype.CNAME)%Z; [|auto].
  destruct (targets_of rrset); [auto|]. apply return_call_le.
Qed.

Lemma ns_loop_le ns_names next_servers w out :
  ns_loop self ns_names next_servers w = Some out ->
  ns_loop self' ns_names next_servers w = Some out.
Proof.
  revert next_servers w.
  induction ns_names as [|ns_name rest IH]; cbn [ns_loop]; intros next w Hl.
  - exact Hl.
  - destruct (from_text ns_name) as [ns_qname|]; [|auto].
    destruct (self ns_qname rdatatype.A ROOT_SERVERS w) as [out0|] eqn:Hs;
      [|discriminate].
    rewrite (self_le _ _ _ _ _ Hs).
    destruct out0 as [[r|e] w0]; [|auto].
    destruct (truthy (answer r)); auto.
Qed.

Lemma follow_authority_le qname qtype response w out :
  follow_authority self qname qtype response w = Some out ->
  follow_authority self' qname qtype response w = Some out.
Proof.
  unfold follow_authority.
  destruct (truthy (authority response)); [|auto].
  destruct (authority_loop qname qtype (authority response) [] false)
    as [ns_names|e]; [|auto].
  destruct (truthy ns_names); [|auto].
  destruct (ns_loop self ns_names [] w) as [[next w0]|] eqn:Hl; [|discriminate].
  rewrite (ns_loop_le _ _ _ _ Hl).
  destruct (truthy next); [|auto]. apply return_call_le.
Qed.

Lemma follow_additional_le qname qtype response w out :
  follow_additional self qname qtype response w = Some out ->
  follow_additional self' qname qtype response w = Some out.
Proof.
  unfold follow_additional.
  destruct (truthy (additional response));
    [|apply follow_authority_le].
  destruct (truthy (extend_addresses (additional response) []));
    [apply return_call_le|apply follow_authority_le].
Qed.

Lemma on_response_le qname qtype response w out :
  on_response self qname qtype response w = Some out ->
  on_response self' qname qtype response w = Some out.
Proof.
  unfold on_response.
  destruct (rcode_of response =? rcode.NXDOMAIN)%Z; [auto|].
  destruct (truthy (answer response)).
  - destruct (answer_loop self qtype response (answer response) w)
      as [out0|] eqn:Ha; [|discriminate].
    rewrite (answer_loop_le _ _ _ _ _ Ha).
    destruct out0 as [[[r|]|e] w0]; auto. apply follow_additional_le.
  - apply follow_additional_le.
Qed.

Lemma try_server_le qname qtype ns lt sr w out :
  try_server self qname qtype ns lt sr w = Some out ->
  try_server self' qname qtype ns lt sr w = Some out.
Proof.
  unfold try_server.
  destruct (udp qname qtype ns w) as [[response| |] w1]; auto.
  destruct (on_response self qname qtype response w1) as [out0|] eqn:Ho;
    [|discriminate].
  now rewrite (on_response_le _ _ _ _ _ Ho).
Qed.

Lemma for_ns_le qname qtype nameservers lt sr w out :
  for_ns self qname qtype nameservers lt sr w = Some out ->
  for_ns self' qname qtype nameservers lt sr w = Some out.
Proof.
  revert lt sr w.
  induction nameservers as [|ns rest IH]; cbn [for_ns]; intros lt sr w Hf.
  - exact Hf.
  - destruct (try_server self qname qtype ns lt sr w) as [out0|] eqn:Ht;
      [|discriminate].
    rewrite (try_server_le _ _ _ _ _ _ _ Ht).
    destruct out0 as [[outcome|lt1 sr1] w1]; auto.
Qed.
End MoreFuel.

Lemma iterative_resolve_more_fuel `{Network} (fuel extra : nat) :
  forall qname qtype nameservers w out,
    _iterative_resolve fuel qname qtype nameservers w = Some out ->
    _iterative_resolve (fuel + extra) qname qtype nameservers w = Some out.
Proof.
  induction fuel as [|fuel IH]; intros qname qtype nameservers w out Hr.
  - discriminate.
  - cbn [Nat.add _iterative_resolve] in *.
    eapply for_ns_le; [|exact Hr]. exact IH.
Qed.

Lemma iterative_resolve_fuel_agree `{Network} (fuel fuel' : nat)
      qname qtype nameservers w out out' :
  _iterative_resolve fuel qname qtype nameservers w = Some out ->
  _iterative_resolve fuel' qname qtype nameservers w = Some out' ->
  out = out'.
Proof.
  intros Hr Hr'.
  apply (iterative_resolve_more_fuel fuel fuel') in Hr.
  apply (iterative_resolve_more_fuel fuel' fuel) in Hr'.
  rewrite Nat.add_comm in Hr'. congruence.
Qed.

(** ** Where the engine calls itself *)

(** C7.  The calls of the engine for a CNAME target (in the answer loop)
    and for a name-server name (in the referral loop) are calls with
    [ROOT_SERVERS]: whatever the engine does, both loops are unchanged when
    the server set of every call they make is replaced by [ROOT_SERVERS].
    Neither loop is given the server set of the level that runs it, and
    [ROOT_SERVERS] is the constant list of 13 addresses. *)
Theorem recursion_restarts_at_root `{Network}
        (self : Name -> RdType -> list Server -> M Response) :
  (forall qtype response rrsets w,
      answer_loop self qtype response rrsets w
      = answer_loop (at_root self) qtype response rrsets w)
  /\ (forall ns_names next_servers w,
         ns_loop self ns_names next_servers w
         = ns_loop (at_root self) ns_names next_servers w)
  /\ List.length ROOT_SERVERS = 13.
Proof.
  split; [|split].
  - intros qtype response rrsets w.
    induction rrsets as [|rrset rest IH]; cbn [answer_loop]; [reflexivity|].
    destruct (rdtype rrset =? rdatatype.CNAME)%Z.
    + destruct (targets_of rrset); reflexivity.
    + destruct (rdtype rrset =? qtype)%Z; [reflexivity|exact IH].
  - intros ns_names.
    induction ns_names as [|ns_name rest IH]; cbn [ns_loop]; intros next w;
      [reflexivity|].
    destruct (from_text ns_name) as [ns_qname|]; [|apply IH].
    unfold at_root at 1.
    destruct (self ns_qname rdatatype.A ROOT_SERVERS w) as [[[r|e] w0]|];
      [|apply IH|reflexivity].
    destruct (truthy (answer r)); apply IH.
  - reflexivity.
Qed.

(** ** Glue *)

Lemma extend_addresses_flat_map `{NameLib} (rrsets : list RRset)
      (next_servers : list Server) :
  extend_addresses rrsets next_servers
  = next_servers
      ++ flat_map addresses_of
           (filter (fun rrset => (rdtype rrset =? rdatatype.A)%Z) rrsets).
Proof.
  revert next_servers.
  induction rrsets as [|rrset rest IH]; intros next; cbn [extend_addresses filter].
  - now rewrite app_nil_r.
  - destruct (rdtype rrset =? rdatatype.A)%Z.
    + rewrite IH. cbn [flat_map]. now rewrite app_assoc.
    + apply IH.
Qed.

(** C8.  A server of the loop has sent a response that is not NXDOMAIN, no
    rrset of its answer section decides, and the A rrsets of its additional
    section hold an address.  Then the engine calls itself for the same
    name and type on the addresses of the A rrsets of the additional
    section, in their order, in the world the response has left, and the
    call decides the turn: what it returns is returned, its
    [NXDomainError] or [NoRecordError] is raised, and on any other failure
    of it the loop goes on with the next server.  The authority section is
    not read: the turn is the same whatever it holds. *)
Theorem glue_before_authority `{Network} (fuel : nat) (qname : Name)
        (qtype : RdType) (tried : list Server) (ns : Server)
        (rest : list Server) (w : World) (replies : list Reply)
        (lt : option Exn) (sr : nat) (w0 : World)
        (response : Response) (w1 : World) :
  loop_runs (_iterative_resolve fuel) qname qtype tried (None, 0, w)
            replies (lt, sr, w0) ->
  udp qname qtype ns w0 = (Received response, w1) ->
  rcode_of response <> rcode.NXDOMAIN ->
  find (decides qtype) (answer response) = None ->
  flat_map addresses_of
    (filter (fun rrset => (rdtype rrset =? rdatatype.A)%Z) (additional response))
  <> [] ->
  _iterative_resolve (S fuel) qname qtype (tried ++ ns :: rest) w
  = match _iterative_resolve fuel qname qtype
            (flat_map addresses_of
               (filter (fun rrset => (rdtype rrset =? rdatatype.A)%Z)
                       (additional response))) w1 with
    | None => None
    | Some (Return r, w2) => Some (Return r, w2)
    | Some (Raise (NXDomainError m), w2) => Some (Raise (NXDomainError m), w2)
    | Some (Raise (NoRecordError m), w2) => Some (Raise (NoRecordError m), w2)
    | Some (Raise _, w2) =>
        for_ns (_iterative_resolve fuel) qname qtype rest lt (S sr) w2
    end
  /\ (forall authority',
         on_response (_iterative_resolve fuel) qname qtype
           (mkResponse (rcode_of response) (answer response) authority'
                       (additional response)) w1
         = on_response (_iterative_resolve fuel) qname qtype response w1).
Proof.
  intros Hl Hu Hr Hf Hg.
  assert (Hglue : forall au,
             on_response (_iterative_resolve fuel) qname qtype
               (mkResponse (rcode_of response) (answer response) au
                           (additional response)) w1
             = return_call
                 (_iterative_resolve fuel qname qtype
                    (flat_map addresses_of
                       (filter (fun rrset => (rdtype rrset =? rdatatype.A)%Z)
                               (additional response)))) w1).
  { intros au.
    rewrite on_response_undecided by assumption.
    rewrite follow_additional_glue;
      cbn [additional]; rewrite extend_addresses_flat_map; [reflexivity|exact Hg]. }
  assert (Hhere : on_response (_iterative_resolve fuel) qname qtype response w1
                  = return_call
                      (_iterative_resolve fuel qname qtype
                         (flat_map addresses_of
                            (filter (fun rrset => (rdtype rrset =? rdatatype.A)%Z)
                                    (additional response)))) w1).
  { rewrite <- (Hglue (authority response)). now destruct response. }
  split.
  - pose proof (for_ns_app _ qname qtype tried (ns :: rest) (None, 0, w)
                  replies lt sr w0 Hl) as Happ.
    cbn [fst snd] in Happ.
    change (_iterative_resolve (S fuel) qname qtype (tried ++ ns :: rest) w)
      with (for_ns (_iterative_resolve fuel) qname qtype (tried ++ ns :: rest)
              None 0 w).
    rewrite Happ. cbn [for_ns]. unfold try_server. rewrite Hu, Hhere.
    unfold return_call.
    destruct (_iterative_resolve fuel qname qtype
                (flat_map addresses_of
                   (filter (fun rrset => (rdtype rrset =? rdatatype.A)%Z)
                           (additional response))) w1)
      as [[[r|e] w2]|]; try reflexivity.
    destruct e; reflexivity.
  - intros au. now rewrite (Hglue au), Hhere.
Qed.

Lemma glue_before_authority_witness :
  @_iterative_resolve text_names (scripted example_com) 3
     "example.com."%string rdatatype.A ROOT_SERVERS []
  = Some (Return example_com_answer,
          [("example.com.", rdatatype.A, "198.41.0.4");
           ("example.com.", rdatatype.A, "192.5.6.30");
           ("example.com.", rdatatype.A, "199.43.135.53")]%string)
  /\ @_iterative_resolve text_names (scripted example_com) 2
       "example.com."%string rdatatype.A ["192.5.6.30"%string]
       [("example.com.", rdatatype.A, "198.41.0.4")]%string
     = Some (Return example_com_answer,
             [("example.com.", rdatatype.A, "198.41.0.4");
              ("example.com.", rdatatype.A, "192.5.6.30");
              ("example.com.", rdatatype.A, "199.43.135.53")]%string).
Proof.
  split; [|vm_compute; reflexivity].
  refine (eq_trans
            (proj1 (@glue_before_authority text_names (scripted example_com) 2
                      "example.com."%string rdatatype.A []
                      "198.41.0.4"%string (tl ROOT_SERVERS) [] [] None 0 []
                      (referral "com." "a.gtld-servers.net." "192.5.6.30")
                      [("example.com."%string, rdatatype.A, "198.41.0.4"%string)]
                      _ _ _ _ _)) _).
  - apply runs_nil.
  - reflexivity.
  - discriminate.
  - reflexivity.
  - discriminate.
  - vm_compute. reflexivity.
Defined.

(** ** The answer section *)

(** C2, as the code has it.  In a response that is not NXDOMAIN, the first
    rrset of the answer section that is a CNAME rrset or an rrset of the
    requested type decides.  If it is not a CNAME rrset, the engine returns
    the response at once, in the world the reply left; if it is a CNAME
    rrset, the body calls the engine for its first target, from the root
    servers, whatever follows it in the answer section. *)
Theorem first_deciding_rrset_wins `{Network} (fuel : nat) (qname : Name)
        (qtype : RdType) (tried : list Server) (ns : Server)
        (rest : list Server) (w : World) (response : Response) (w1 : World)
        (rrset : RRset) :
  asked (_iterative_resolve fuel) qname qtype tried ns w response w1 ->
  rcode_of response <> rcode.NXDOMAIN ->
  find (decides qtype) (answer response) = Some rrset ->
  (rdtype rrset <> rdatatype.CNAME ->
   rdtype rrset = qtype
   /\ _iterative_resolve (S fuel) qname qtype (tried ++ ns :: rest) w
      = Some (Return response, w1))
  /\ (rdtype rrset = rdatatype.CNAME ->
      forall cname_target more,
        targets_of rrset = cname_target :: more ->
        on_response (_iterative_resolve fuel) qname qtype response w1
        = return_call
            (_iterative_resolve fuel cname_target qtype ROOT_SERVERS) w1).
Proof.
  intros Ha Hr Hf.
  pose proof (on_response_decided (_iterative_resolve fuel) qname qtype
                response rrset w1 Hr Hf) as Ho.
  split.
  - intros Hc. apply Z.eqb_neq in Hc. rewrite Hc in Ho.
    split.
    + apply find_some in Hf. destruct Hf as [_ Hd]. unfold decides in Hd.
      rewrite Hc in Hd. now apply Z.eqb_eq.
    + cbn [_iterative_resolve].
      destruct (for_ns_asked _ qname qtype tried ns rest w response w1 Ha)
        as (lt & sr & w0 & -> & Hu).
      exact (for_ns_break _ qname qtype ns rest lt sr w0 response w1 _ _ Hu Ho).
  - intros Hc target more Ht. rewrite Hc, Ht in Ho. exact Ho.
Qed.

Lemma first_deciding_rrset_wins_witness :
  @_iterative_resolve text_names (scripted example_com) 1 "example.com."
     rdatatype.A ["192.0.2.9"; "199.43.135.53"]%string []
  = Some (Return example_com_answer,
          [("example.com.", rdatatype.A, "192.0.2.9");
           ("example.com.", rdatatype.A, "199.43.135.53")]%string)
  /\ @on_response text_names (scripted cname_first)
       (@_iterative_resolve text_names (scripted cname_first) 1)
       "www.example.com." rdatatype.A cname_with_address
       [("www.example.com.", rdatatype.A, "198.41.0.4")]%string
     = @return_call text_names (scripted cname_first)
         (@_iterative_resolve text_names (scripted cname_first) 1
            "host.example.net." rdatatype.A ROOT_SERVERS)
         [("www.example.com.", rdatatype.A, "198.41.0.4")]%string.
Proof.
  split;
    [|refine (proj2 (@first_deciding_rrset_wins text_names (scripted cname_first)
                1 "www.example.com."%string rdatatype.A [] "198.41.0.4"%string
                (tl ROOT_SERVERS) [] cname_with_address _
                (rr_CNAME "www.example.com." "host.example.net.") _ _ _)
                eq_refl "host.example.net."%string [] eq_refl);
      [exists [], None, 0, []; split; [apply runs_nil|reflexivity]
      |discriminate|reflexivity]].
  refine (proj2 (proj1 (@first_deciding_rrset_wins text_names (scripted example_com)
                   0 "example.com."%string rdatatype.A ["192.0.2.9"%string]
                   "199.43.135.53"%string [] [] example_com_answer _
                   (rr_A "example.com." 300%Z ["93.184.216.34"%string])
                   _ _ _) _)).
  - exists [Timeout], (Some (TimeoutError
             "DNS query timed out for example.com. at server 192.0.2.9")), 0,
      [("example.com.", rdatatype.A, "192.0.2.9")]%string.
    split; [|reflexivity].
    eapply (@runs_cons text_names (scripted example_com)); [reflexivity|].
    apply runs_nil.
  - discriminate.
  - reflexivity.
  - discriminate.
Defined.

(** C2 fails when the CNAME rrset comes first.  The first root server
    answers the A query for www.example.com. with the CNAME rrset followed
    by the A rrset of the target; the engine does not return that
    response, with any fuel: it chases the target, which no server
    answers for, and ends in [NoRecordError]. *)
Lemma requested_type_after_cname_counterexample :
  @udp text_names (scripted cname_first) "www.example.com."%string rdatatype.A
       "198.41.0.4"%string []
  = (Received cname_with_address,
     [("www.example.com.", rdatatype.A, "198.41.0.4")]%string)
  /\ rcode_of cname_with_address <> rcode.NXDOMAIN
  /\ @answers_type text_names rdatatype.A cname_with_address
  /\ option_map fst
       (@_iterative_resolve text_names (scripted cname_first) 2
          "www.example.com."%string rdatatype.A ROOT_SERVERS [])
     = Some (Raise (NoRecordError "No A or NS records found for www.example.com."))
  /\ ~ (exists fuel w',
           @_iterative_resolve text_names (scripted cname_first) fuel
             "www.example.com."%string rdatatype.A ROOT_SERVERS []
           = Some (Return cname_with_address, w')).
Proof.
  assert (Hrun : exists out,
             @_iterative_resolve text_names (scripted cname_first) 2
               "www.example.com."%string rdatatype.A ROOT_SERVERS [] = Some out
             /\ fst out = Raise (NoRecordError
                                   "No A or NS records found for www.example.com.")).
  { eexists. split; vm_compute; reflexivity. }
  destruct Hrun as (out & Hrun & Hout).
  split; [reflexivity|]. split; [discriminate|]. split.
  - exists (rr_A "host.example.net." 300%Z ["192.0.2.1"%string]).
    split; [right; left; reflexivity|reflexivity].
  - split.
    + rewrite Hrun. cbn [option_map]. now rewrite Hout.
    + intros (fuel & w' & Hret).
      pose proof (iterative_resolve_fuel_agree _ _ _ _ _ _ _ _ Hrun Hret) as He.
      rewrite He in Hout. discriminate Hout.
Qed.

(** ** The authority section *)

(** What the authority loop does: it raises exactly when the requested type
    is A and the section has an SOA rrset with no NS rrset before it. *)
Lemma authority_loop_raises `{NameLib} qname qtype rrsets ns_names found :
  (exists e, authority_loop qname qtype rrsets ns_names found = Raise e)
  <-> (found = false /\ qtype = rdatatype.A
       /\ exists before rrset after,
            rrsets = before ++ rrset :: after
            /\ rdtype rrset = rdatatype.SOA
            /\ existsb (fun x => (rdtype x =? rdatatype.NS)%Z) before = false).
Proof.
  revert ns_names found.
  induction rrsets as [|x rest IH]; intros ns_names found; cbn [authority_loop].
  - split.
    + intros [e He]. discriminate He.
    + intros (_ & _ & before & rrset & after & Hl & _).
      destruct before; discriminate Hl.
  - destruct (rdtype x =? rdatatype.NS)%Z eqn:Hns.
    + rewrite IH. split.
      * intros (Hf & _). discriminate Hf.
      * intros (_ & _ & before & rrset & after & Hl & Hsoa & Hb). exfalso.
        destruct before as [|y before]; inv Hl.
        -- apply Z.eqb_eq in Hns. rewrite Hsoa in Hns. discriminate Hns.
        -- cbn [existsb] in Hb. rewrite Hns in Hb. discriminate Hb.
    + destruct (rdtype x =? rdatatype.SOA)%Z eqn:Hsoa.
      * destruct found; cbn [negb andb].
        -- rewrite IH. split.
           ++ intros (Hf & _). discriminate Hf.
           ++ intros (Hf & _). discriminate Hf.
        -- destruct (qtype =? rdatatype.A)%Z eqn:Hq.
           ++ split; [intros _|eauto].
              split; [reflexivity|]. split; [now apply Z.eqb_eq|].
              exists [], x, rest. repeat split. now apply Z.eqb_eq.
           ++ rewrite IH. apply Z.eqb_neq in Hq. split.
              ** intros (_ & Hq' & _). contradiction.
              ** intros (_ & Hq' & _). contradiction.
      * rewrite IH. split.
        -- intros (Hf & Hq & before & rrset & after & Hl & Hs & Hb).
           split; [exact Hf|]. split; [exact Hq|].
           exists (x :: before), rrset, after. subst rest.
           repeat split; [exact Hs|]. cbn [existsb]. now rewrite Hns.
        -- intros (Hf & Hq & before & rrset & after & Hl & Hs & Hb).
           split; [exact Hf|]. split; [exact Hq|].
           destruct before as [|y before]; inv Hl.
           ++ apply Z.eqb_neq in Hsoa. contradiction.
           ++ exists before, rrset, after. repeat split; [exact Hs|].
              cbn [existsb] in Hb. now rewrite Hns in Hb.
Qed.

(** C3 fails on the code when the SOA rrset comes before the NS rrset: the
    authority section of the response holds an NS rrset, the requested type
    is A, and the engine raises [NoRecordError] at the SOA rrset, without
    resolving the name server. *)
Theorem soa_before_ns_raises_no_record :
  existsb (fun rrset => (@rdtype text_names rrset =? rdatatype.NS)%Z)
          (authority soa_then_ns) = true
  /\ @authority_loop text_names "example.com."%string rdatatype.A
       (authority soa_then_ns) [] false
     = Raise (NoRecordError "No A record found for example.com.")
  /\ @resolve text_names (scripted soa_first) 1 "example.com" []
     = Some (Raise (NoRecordError "No A record found for example.com."),
             [("example.com.", rdatatype.A, "198.41.0.4")]%string)
  /\ @authority_loop text_names "example.com."%string rdatatype.A
       (rev (authority soa_then_ns)) [] false
     = Return ["ns1.example.com."%string].
Proof.
  repeat split; vm_compute; reflexivity.
Qed.

(** ** Termination *)

Lemma existsb_false_In {A : Type} (f : A -> bool) (l : list A) (x : A) :
  existsb f l = false -> In x l -> f x = false.
Proof.
  intros He Hi. destruct (f x) eqn:Hf; [|reflexivity].
  rewrite <- He. symmetry. apply existsb_exists. eauto.
Qed.

Lemma existsb_false_filter {A : Type} (f : A -> bool) (l : list A) :
  existsb f l = false -> filter f l = [].
Proof.
  induction l as [|x l IH]; simpl; [reflexivity|].
  destruct (f x); simpl; [discriminate|exact IH].
Qed.

Lemma authority_loop_no_ns `{NameLib} qname qtype rrsets ns_names found :
  existsb (fun rrset => (rdtype rrset =? rdatatype.NS)%Z) rrsets = false ->
  authority_loop qname qtype rrsets ns_names found = Return ns_names
  \/ exists e, authority_loop qname qtype rrsets ns_names found = Raise e.
Proof.
  induction rrsets as [|rrset rest IH]; cbn [authority_loop existsb]; intros He.
  - now left.
  - apply orb_false_iff in He. destruct He as [-> He].
    destruct (rdtype rrset =? rdatatype.SOA)%Z; [|auto].
    destruct (negb found && (qtype =? rdatatype.A)%Z); [right; eauto|auto].
Qed.

(** A response that is not referring is settled without a call. *)
Lemma on_response_no_call `{Network} self qname qtype response w :
  referring response = false ->
  exists out, on_response self qname qtype response w = Some (out, w).
Proof.
  unfold referring. intros Hr.
  apply orb_false_iff in Hr. destruct Hr as [Hr Hau].
  apply orb_false_iff in Hr. destruct Hr as [Han Had].
  destruct (Z.eq_dec (rcode_of response) rcode.NXDOMAIN) as [Hc|Hc].
  - rewrite (on_response_nxdomain _ _ _ _ _ Hc). eauto.
  - destruct (find (decides qtype) (answer response)) as [rrset|] eqn:Hf.
    + rewrite (on_response_decided _ _ _ _ _ _ Hc Hf).
      apply find_some in Hf. destruct Hf as [Hi _].
      rewrite (existsb_false_In _ _ _ Han Hi). eauto.
    + rewrite (on_response_undecided _ _ _ _ _ Hc Hf).
      rewrite follow_additional_no_glue
        by (rewrite extend_addresses_flat_map, (existsb_false_filter _ _ Had);
            reflexivity).
      unfold follow_authority.
      destruct (truthy (authority response)); [|eauto].
      destruct (authority_loop_no_ns qname qtype (authority response) [] false Hau)
        as [->|[e ->]]; cbn [truthy]; eauto.
Qed.

Section Termination.
Context `{Net : Network}.
Variable budget : World -> nat.

Section Body.
Variable self : Name -> RdType -> list Server -> M Response.
Variable b : nat.
Hypothesis self_terminates :
  forall qname qtype servers w,
    budget w <= b ->
    exists out w',
      self qname qtype servers w = Some (out, w') /\ budget w' <= budget w.

Lemma return_call_terminates qname qtype servers w :
  budget w <= b ->
  exists out w',
    return_call (self qname qtype servers) w = Some (out, w')
    /\ budget w' <= budget w.
Proof.
  intros Hb. unfold return_call.
  destruct (self_terminates qname qtype servers w Hb)
    as ([r|e] & w' & -> & Hw); eauto.
Qed.

Lemma ns_loop_terminates ns_names next_servers w :
  budget w <= b ->
  exists next w',
    ns_loop self ns_names next_servers w = Some (next, w')
    /\ budget w' <= budget w.
Proof.
  revert next_servers w.
  induction ns_names as [|ns_name rest IH]; cbn [ns_loop];
    intros next w Hb.
  - eauto.
  - destruct (from_text ns_name) as [ns_qname|]; [|auto].
    destruct (self_terminates ns_qname rdatatype.A ROOT_SERVERS w Hb)
      as (out & w1 & -> & Hw1).
    assert (Hb1 : budget w1 <= b) by lia.
    destruct out as [r|e].
    + destruct (truthy (answer r));
        match goal with
        | |- context [ns_loop self rest ?n w1] =>
            destruct (IH n w1 Hb1) as (next' & w' & -> & Hw')
        end; exists next', w'; (split; [reflexivity|lia]).
    + destruct (IH next w1 Hb1) as (next' & w' & -> & Hw').
      exists next', w'. split; [reflexivity|lia].
Qed.

Lemma on_response_terminates qname qtype response w :
  budget w <= b ->
  exists out w',
    on_response self qname qtype response w = Some (out, w')
    /\ budget w' <= budget w.
Proof.
  intros Hb.
  destruct (Z.eq_dec (rcode_of response) rcode.NXDOMAIN) as [Hc|Hc].
  { rewrite (on_response_nxdomain _ _ _ _ _ Hc). eauto. }
  destruct (find (decides qtype) (answer response)) as [rrset|] eqn:Hf.
  { rewrite (on_response_decided _ _ _ _ _ _ Hc Hf).
    destruct (rdtype rrset =? rdatatype.CNAME)%Z; [|eauto].
    destruct (targets_of rrset); [eauto|].
    now apply return_call_terminates. }
  rewrite (on_response_undecided _ _ _ _ _ Hc Hf).
  destruct (extend_addresses (additional response) []) as [|a l] eqn:He.
  - rewrite (follow_additional_no_glue _ _ _ _ _ He).
    unfold follow_authority.
    destruct (truthy (authority response)); [|eauto].
    destruct (authority_loop qname qtype (authority response) [] false)
      as [ns_names|e]; [|eauto].
    destruct (truthy ns_names); [|eauto].
    destruct (ns_loop_terminates ns_names [] w Hb) as (next & w1 & -> & Hw1).
    destruct (truthy next); [|eauto].
    destruct (return_call_terminates qname qtype next w1 ltac:(lia))
      as (out & w' & -> & Hw').
    exists out, w'. split; [reflexivity|lia].
  - rewrite follow_additional_glue by (rewrite He; discriminate).
    now apply return_call_terminates.
Qed.
End Body.

Hypothesis udp_budget :
  forall qname qtype ns w,
    budget (snd (udp qname qtype ns w)) <= budget w
    /\ (forall response,
           fst (udp qname qtype ns w) = Received response ->
           referring response = true ->
           budget (snd (udp qname qtype ns w)) < budget w).

Section Loop.
Variable self : Name -> RdType -> list Server -> M Response.
Variable n : nat.
Hypothesis self_terminates :
  forall qname qtype servers w,
    budget w < n ->
    exists out w',
      self qname qtype servers w = Some (out, w') /\ budget w' <= budget w.

Lemma try_server_terminates qname qtype ns lt sr w :
  budget w <= n ->
  exists step w',
    try_server self qname qtype ns lt sr w = Some (step, w')
    /\ budget w' <= budget w.
Proof.
  intros Hb. unfold try_server.
  destruct (udp_budget qname qtype ns w) as [Hle Hlt].
  destruct (udp qname qtype ns w) as [[response| |] w1]; cbn [fst snd] in *;
    eauto.
  assert (Hon : exists out w',
             on_response self qname qtype response w1 = Some (out, w')
             /\ budget w' <= budget w1).
  { destruct (referring response) eqn:Hr.
    - specialize (Hlt response eq_refl Hr).
      apply (on_response_terminates self (budget w1)); [|lia].
      intros q t s w0 Hw0. apply self_terminates. lia.
    - destruct (on_response_no_call self qname qtype response w1 Hr)
        as [out ->]. eauto. }
  destruct Hon as (out & w' & -> & Hw').
  assert (Hb' : budget w' <= budget w) by lia.
  destruct out as [[r|]|e]; eauto.
  destruct e; eauto.
Qed.

Lemma for_ns_terminates qname qtype nameservers lt sr w :
  budget w <= n ->
  exists out w',
    for_ns self qname qtype nameservers lt sr w = Some (out, w')
    /\ budget w' <= budget w.
Proof.
  revert lt sr w.
  induction nameservers as [|ns rest IH]; cbn [for_ns]; intros lt sr w Hb.
  - eauto.
  - destruct (try_server_terminates qname qtype ns lt sr w Hb)
      as (step & w1 & -> & Hw1).
    destruct step as [outcome|lt1 sr1]; [eauto|].
    destruct (IH lt1 sr1 w1 ltac:(lia)) as (out & w' & -> & Hw').
    exists out, w'. split; [reflexivity|lia].
Qed.
End Loop.

Lemma iterative_resolve_terminates (fuel : nat) :
  forall qname qtype nameservers w,
    budget w < fuel ->
    exists out w',
      _iterative_resolve fuel qname qtype nameservers w = Some (out, w')
      /\ budget w' <= budget w.
Proof.
  induction fuel as [|fuel IH]; intros qname qtype nameservers w Hb.
  - lia.
  - cbn [_iterative_resolve].
    apply (for_ns_terminates (_iterative_resolve fuel) fuel IH). lia.
Qed.
End Termination.

(** The engine raises nothing but its four exception classes. *)

Section Classified.
Context `{Net : Network}.
Variable self : Name -> RdType -> list Server -> M Response.

Lemma try_server_classified qname qtype ns lt sr w step w' :
  (forall e, lt = Some e -> classified e) ->
  try_server self qname qtype ns lt sr w = Some (step, w') ->
  match step with
  | Break (Return _) => True
  | Break (Raise e) => classified e
  | Continue lt1 _ => forall e, lt1 = Some e -> classified e
  end.
Proof.
  intros Hlt. unfold try_server. intros Ht.
  destruct (udp qname qtype ns w) as [[response| |] w1].
  - destruct (on_response self qname qtype response w1)
      as [[[[r|]|e] w2]|]; try discriminate.
    + inv Ht. exact I.
    + inv Ht. exact Hlt.
    + destruct e; inv Ht; try exact Hlt; exact I.
  - inv Ht. intros e He. inv He. exact I.
  - inv Ht. exact Hlt.
Qed.

Lemma for_ns_classified qname qtype nameservers lt sr w e w' :
  (forall e0, lt = Some e0 -> classified e0) ->
  for_ns self qname qtype nameservers lt sr w = Some (Raise e, w') ->
  classified e.
Proof.
  revert lt sr w.
  induction nameservers as [|ns rest IH]; cbn [for_ns]; intros lt sr w Hlt Hf.
  - inv Hf. unfold exhausted.
    destruct lt as [e0|]; [destruct (sr =? 0); [now apply Hlt|]|];
      destruct (0 <? sr); exact I.
  - destruct (try_server self qname qtype ns lt sr w)
      as [[step w1]|] eqn:Ht; [|discriminate].
    pose proof (try_server_classified _ _ _ _ _ _ _ _ Hlt Ht) as Hs.
    destruct step as [outcome|lt1 sr1].
    + inv Hf. exact Hs.
    + eapply IH; eauto.
Qed.
End Classified.

Lemma iterative_resolve_classified `{Network} fuel qname qtype nameservers w e w' :
  _iterative_resolve fuel qname qtype nameservers w = Some (Raise e, w') ->
  classified e.
Proof.
  destruct fuel as [|fuel]; [discriminate|]. cbn [_iterative_resolve].
  apply for_ns_classified. discriminate.
Qed.

(** The algorithm by itself does not end where two names are CNAMEs of
    each other: the engine chases from one to the other, and no amount of
    fuel lets the call for one of them complete.  What ends such a run is
    the recursion limit of the interpreter, below. *)
Lemma cyclic_cname_never_completes :
  ~ (exists fuel out,
        @_iterative_resolve text_names (scripted cname_cycle) fuel
          "a.example."%string rdatatype.A ROOT_SERVERS [] = Some out).
Proof.
  assert (Hcut : forall fuel qname w,
             @_iterative_resolve text_names (scripted cname_cycle) fuel
               qname rdatatype.A ROOT_SERVERS w = None).
  { induction fuel as [|fuel IH]; intros qname w; [reflexivity|].
    cbn [_iterative_resolve]. unfold ROOT_SERVERS at 1. cbn [for_ns].
    unfold try_server. cbn [udp scripted]. unfold cname_cycle.
    destruct (qname =? "a.example.")%string.
    - rewrite (on_response_decided _ _ _ _
                 (rr_CNAME "a.example." "b.example.") _)
        by (discriminate || reflexivity).
      cbn. unfold return_call. now rewrite IH.
    - rewrite (on_response_decided _ _ _ _
                 (rr_CNAME qname "a.example.") _)
        by (discriminate || reflexivity).
      cbn. unfold return_call. now rewrite IH. }
  intros (fuel & out & Hr). rewrite Hcut in Hr. discriminate Hr.
Qed.

(** No depth is the last one: for every [n] there is a network on which
    the call completes, and needs [n] nested calls of the engine to itself
    to do so. *)
Lemma recursion_depth_unbounded (n : nat) :
  forall qname,
    @_iterative_resolve text_names draining (S n) qname rdatatype.A
       ROOT_SERVERS n = Some (Return example_com_answer, 0)
    /\ @_iterative_resolve text_names draining n qname rdatatype.A
         ROOT_SERVERS n = None.
Proof.
  induction n as [|n IH]; intros qname.
  - split; reflexivity.
  - destruct (IH "example.com."%string) as [Hdone Hcut].
    split;
      match goal with
      | |- @_iterative_resolve ?L ?N (S ?m) ?q ?t ?s ?w = _ =>
          change (@_iterative_resolve L N (S m) q t s w)
            with (@for_ns L N (@_iterative_resolve L N m) q t s None 0 w);
          remember (@_iterative_resolve L N m) as self eqn:Hself in *
      end;
      unfold ROOT_SERVERS at 1; cbn [for_ns];
      unfold try_server; cbn [udp draining];
      rewrite (on_response_decided _ _ _ _ (rr_CNAME qname "example.com.") _)
        by (discriminate || reflexivity);
      cbn; unfold return_call.
    + now rewrite Hdone.
    + now rewrite Hcut.
Qed.

(** ** The recursion limit of the interpreter *)

(** A loop whose callee always comes back comes back. *)
Section Total.
Context `{Net : Network}.
Variable self : Name -> RdType -> list Server -> M Response.
Hypothesis self_total :
  forall qname qtype servers w,
    exists out w', self qname qtype servers w = Some (out, w').



End Total.





(** The handler of line 167 goes on to the next server when the call for
    a CNAME target or for a glue hop is refused. *)
Lemma refused_call_continues `{Network} qname qtype ns rest lt sr w response w1 :
  udp qname qtype ns w = (Received response, w1) ->
  rcode_of response <> rcode.NXDOMAIN ->
  (exists rrset cname_target more,
      find (decides qtype) (answer response) = Some rrset
      /\ rdtype rrset = rdatatype.CNAME
      /\ targets_of rrset = cname_target :: more)
  \/ (find (decides qtype) (answer response) = None
      /\ extend_addresses (additional response) [] <> []) ->
  for_ns (_iterative_resolve_limited 0) qname qtype (ns :: rest) lt sr w
  = for_ns (_iterative_resolve_limited 0) qname qtype rest lt (S sr) w1.
Proof.
  intros Hu Hc Hcall.
  assert (Ho : on_response (_iterative_resolve_limited 0) qname qtype
                 response w1
               = Some (Raise (PyException "RecursionError"), w1)).
  { destruct Hcall as [(rrset & t & more & Hf & Ht & Hts)|[Hf Hg]].
    - rewrite (on_response_decided _ _ _ _ _ _ Hc Hf), Ht, Hts. reflexivity.
    - rewrite (on_response_undecided _ _ _ _ _ Hc Hf).
      rewrite (follow_additional_glue _ _ _ _ _ Hg). reflexivity. }
  exact (for_ns_break _ qname qtype ns rest lt sr w response w1 _ _ Hu Ho).
Qed.



Section Aliases.
#[local] Existing Instance text_names.

(** Every reply of the cycle asks for a chase. *)
Lemma cname_cycle_reply (qname : string) :
  exists response rrset cname_target,
    (forall qtype ns, cname_cycle qname qtype ns = Received response)
    /\ rcode_of response <> rcode.NXDOMAIN
    /\ find (decides rdatatype.A) (answer response) = Some rrset
    /\ rdtype rrset = rdatatype.CNAME
    /\ targets_of rrset = [cname_target].
Proof.
  unfold cname_cycle.
  destruct (qname =? "a.example.")%string;
    eexists _, _, _; (split; [reflexivity|]);
    (split; [discriminate|]); repeat split.
Qed.

(** Under every limit, the run on two names that are CNAMEs of each other
    ends in [NoRecordError]: the deepest level has a response of each of
    its servers and no call that is let run. *)
Lemma cyclic_cname_ends_in_no_record (limit : nat) :
  forall qname w,
    exists msg w',
      @_iterative_resolve_limited text_names (scripted cname_cycle) (S limit)
        qname rdatatype.A ROOT_SERVERS w
      = Some (Raise (NoRecordError msg), w').
Proof.
  induction limit as [|limit IH]; intros qname w;
    destruct (cname_cycle_reply qname)
      as (response & rrset & cname_target & Hrep & Hc & Hf & Ht & Hts).
  - cbn [_iterative_resolve_limited]. unfold ROOT_SERVERS.
    repeat (erewrite (@refused_call_continues text_names (scripted cname_cycle));
            [|cbn [udp scripted]; rewrite Hrep; reflexivity
             |exact Hc
             |left; exists rrset, cname_target, []; auto]).
    cbn [for_ns]. eexists _, _. reflexivity.
  - destruct (IH cname_target (w ++ [(qname, rdatatype.A, "198.41.0.4"%string)]))
      as (msg & w' & Hdeep).
    exists msg, w'.
    match goal with
    | |- @_iterative_resolve_limited ?L ?N (S ?m) ?q ?t ?s ?w0 = _ =>
        change (@_iterative_resolve_limited L N (S m) q t s w0)
          with (@for_ns L N (@_iterative_resolve_limited L N m) q t s None 0 w0)
    end.
    unfold ROOT_SERVERS at 1.
    refine (for_ns_break _ qname rdatatype.A _ _ None 0 w response _
              (Raise (NoRecordError msg)) w' _ _).
    + cbn [udp scripted]. rewrite Hrep. reflexivity.
    + rewrite (on_response_decided _ _ _ _ _ _ Hc Hf), Ht, Hts.
      cbn [Z.eqb Pos.eqb rdatatype.CNAME]. unfold return_call.
      match goal with
      | |- match ?call with _ => _ end = _ =>
          assert (Hcall : call = Some (Raise (NoRecordError msg), w'))
            by exact Hdeep;
          rewrite Hcall
      end.
      reflexivity.
Qed.
End Aliases.


(** ** How a call ends *)

Section Endings.
Context `{Net : Network}.
Variable self : Name -> RdType -> list Server -> M Response.

(** A run of the loop ends after the last server, or it leaves the
    function at a server. *)
Lemma for_ns_cases qname qtype servers lt sr w out w' :
  for_ns self qname qtype servers lt sr w = Some (out, w') ->
  (exists replies lt' sr',
      loop_runs self qname qtype servers (lt, sr, w) replies (lt', sr', w')
      /\ out = Raise (exhausted qname lt' sr'))
  \/ (exists tried ns rest replies lt1 sr1 w1,
         servers = tried ++ ns :: rest
         /\ loop_runs self qname qtype tried (lt, sr, w) replies (lt1, sr1, w1)
         /\ try_server self qname qtype ns lt1 sr1 w1 = Some (Break out, w')).
Proof.
  revert lt sr w.
  induction servers as [|ns rest IH]; cbn [for_ns]; intros lt sr w Hf.
  - inv Hf. left. exists [], lt, sr. split; [apply runs_nil|reflexivity].
  - destruct (try_server self qname qtype ns lt sr w)
      as [[[outcome|lt1 sr1] w1]|] eqn:Ht; try discriminate.
    + inv Hf. right. exists [], ns, rest, [], lt, sr, w.
      split; [reflexivity|]. split; [apply runs_nil|exact Ht].
    + destruct (IH lt1 sr1 w1 Hf)
        as [(replies & lt' & sr' & Hl & Ho)
           |(tried & ns' & rest' & replies & lt2 & sr2 & w2 & Hs & Hl & Hb)].
      * left. exists (fst (udp qname qtype ns w) :: replies), lt', sr'.
        split; [|exact Ho]. eapply runs_cons; eauto.
      * right. exists (ns :: tried), ns', rest',
          (fst (udp qname qtype ns w) :: replies), lt2, sr2, w2.
        split; [now rewrite Hs|]. split; [|exact Hb].
        eapply runs_cons; eauto.
Qed.

(** A turn that leaves the function has received a response, and leaves
    with what the body made of it. *)
Lemma try_server_break qname qtype ns lt sr w out w' :
  try_server self qname qtype ns lt sr w = Some (Break out, w') ->
  exists response w1,
    udp qname qtype ns w = (Received response, w1)
    /\ match out with
       | Return r =>
           on_response self qname qtype response w1 = Some (Return (Some r), w')
       | Raise e =>
           on_response self qname qtype response w1 = Some (Raise e, w')
           /\ ((exists m, e = NXDomainError m) \/ (exists m, e = NoRecordError m))
       end.
Proof.
  unfold try_server. intros Ht.
  destruct (udp qname qtype ns w) as [[response| |] w1]; try discriminate.
  exists response, w1. split; [reflexivity|].
  destruct (on_response self qname qtype response w1)
    as [[[[r|]|e] w2]|]; try discriminate.
  - inv Ht. reflexivity.
  - destruct e; inv Ht; eauto.
Qed.

(** The authority loop raises nothing but [NoRecordError]. *)
Lemma authority_loop_raise_class qname qtype rrsets ns_names found e :
  authority_loop qname qtype rrsets ns_names found = Raise e ->
  exists m, e = NoRecordError m.
Proof.
  revert ns_names found.
  induction rrsets as [|rrset rest IH]; cbn [authority_loop]; intros ns_names found Ha.
  - discriminate.
  - destruct (rdtype rrset =? rdatatype.NS)%Z; [eauto|].
    destruct (rdtype rrset =? rdatatype.SOA)%Z; [|eauto].
    destruct (negb found && (qtype =? rdatatype.A)%Z); [|eauto].
    inv Ha. eauto.
Qed.

Lemma truthy_ne {A : Type} (l : list A) : truthy l = true -> l <> [].
Proof. destruct l; [discriminate|congruence]. Qed.

Lemma on_response_cases qname qtype response w out w' :
  on_response self qname qtype response w = Some (out, w') ->
  leaves self qname qtype response w out w'
  \/ out = Return None
  \/ (exists m, out = Raise (NoRecordError m))
  \/ (exists m, out = Raise (PyException m)).
Proof.
  intros Ho.
  destruct (Z.eq_dec (rcode_of response) rcode.NXDOMAIN) as [Hc|Hc].
  { rewrite (on_response_nxdomain _ _ _ _ _ Hc) in Ho. inv Ho.
    left. now apply leaves_nxdomain. }
  destruct (find (decides qtype) (answer response)) as [rrset|] eqn:Hf.
  { rewrite (on_response_decided _ _ _ _ _ _ Hc Hf) in Ho.
    destruct (rdtype rrset =? rdatatype.CNAME)%Z eqn:Hcn.
    - apply Z.eqb_eq in Hcn.
      destruct (targets_of rrset) as [|t more] eqn:Ht.
      + inv Ho. right. right. right. eauto.
      + left. eapply leaves_cname; eauto.
    - apply Z.eqb_neq in Hcn. inv Ho. left. eapply leaves_answer; eauto. }
  rewrite (on_response_undecided _ _ _ _ _ Hc Hf) in Ho.
  destruct (extend_addresses (additional response) []) as [|a l] eqn:He.
  - rewrite (follow_additional_no_glue _ _ _ _ _ He) in Ho.
    unfold follow_authority in Ho.
    destruct (truthy (authority response)); [|inv Ho; auto].
    destruct (authority_loop qname qtype (authority response) [] false)
      as [ns_names|e] eqn:Hau.
    + destruct (truthy ns_names); [|inv Ho; auto].
      destruct (ns_loop self ns_names [] w) as [[next w2]|] eqn:Hns;
        [|discriminate].
      destruct (truthy next) eqn:Hn.
      * left. eapply leaves_referral; eauto using truthy_ne.
      * inv Ho. right. right. left. eauto.
    + inv Ho. right. right. left.
      destruct (authority_loop_raise_class _ _ _ _ _ _ Hau) as [m ->]. eauto.
  - left. rewrite follow_additional_glue in Ho by (rewrite He; discriminate).
    rewrite He in Ho. eapply leaves_glue; eauto. discriminate.
Qed.
End Endings.

Lemma return_call_inv `{Network} (call : M Response) w out w' :
  return_call call w = Some (out, w') ->
  match out with
  | Return (Some r) => call w = Some (Return r, w')
  | Return None => False
  | Raise e => call w = Some (Raise e, w')
  end.
Proof.
  unfold return_call. intros Hc.
  destruct (call w) as [[[r|e] w0]|]; inv Hc; reflexivity.
Qed.

(** A call of the engine ends after the last server, or at a server whose
    response makes the body leave. *)
Lemma iterative_resolve_cases `{Network} fuel qname qtype servers w out w' :
  _iterative_resolve (S fuel) qname qtype servers w = Some (out, w') ->
  (exists replies lt sr,
      loop_runs (_iterative_resolve fuel) qname qtype servers (None, 0, w)
                replies (lt, sr, w')
      /\ out = Raise (exhaustion_failure qname servers replies))
  \/ (exists tried ns rest response w1,
         servers = tried ++ ns :: rest
         /\ asked (_iterative_resolve fuel) qname qtype tried ns w response w1
         /\ match out with
            | Return r =>
                leaves (_iterative_resolve fuel) qname qtype response w1
                       (Return (Some r)) w'
            | Raise (NXDomainError m) =>
                leaves (_iterative_resolve fuel) qname qtype response w1
                       (Raise (NXDomainError m)) w'
            | Raise (NoRecordError m) =>
                on_response (_iterative_resolve fuel) qname qtype response w1
                = Some (Raise (NoRecordError m), w')
            | Raise _ => False
            end).
Proof.
  cbn [_iterative_resolve]. intros Hf.
  destruct (for_ns_cases _ _ _ _ _ _ _ _ _ Hf)
    as [(replies & lt & sr & Hl & Ho)
       |(tried & ns & rest & replies & lt1 & sr1 & w1 & Hs & Hl & Hb)].
  - left. exists replies, lt, sr. split; [exact Hl|].
    pose proof (for_ns_exhausted _ _ _ _ _ _ _ _ _ Hl) as He.
    rewrite Hf in He. congruence.
  - right. destruct (try_server_break _ _ _ _ _ _ _ _ _ Hb)
      as (response & w2 & Hu & Ho).
    exists tried, ns, rest, response, w2. split; [exact Hs|]. split.
    { exists replies, lt1, sr1, w1. split; assumption. }
    destruct out as [r|e].
    + destruct (on_response_cases _ _ _ _ _ _ _ Ho)
        as [Hlv|[Hn|[[m Hn]|[m Hn]]]]; [exact Hlv|discriminate..].
    + destruct Ho as [Ho [[m ->]|[m ->]]]; [|exact Ho].
      destruct (on_response_cases _ _ _ _ _ _ _ Ho)
        as [Hlv|[Hn|[[m' Hn]|[m' Hn]]]]; [exact Hlv|discriminate..].
Qed.

(** ** What a returned response is *)

Lemma iterative_resolve_returns_reply `{Network} (fuel : nat) :
  forall qname qtype servers w r w',
    _iterative_resolve fuel qname qtype servers w = Some (Return r, w') ->
    exists qname' ns w0 rrset,
      udp qname' qtype ns w0 = (Received r, w')
      /\ rcode_of r <> rcode.NXDOMAIN
      /\ find (decides qtype) (answer r) = Some rrset
      /\ rdtype rrset = qtype
      /\ qtype <> rdatatype.CNAME.
Proof.
  induction fuel as [|fuel IH]; intros qname qtype servers w r w' Hr;
    [discriminate|].
  destruct (iterative_resolve_cases _ _ _ _ _ _ _ Hr)
    as [(replies & lt & sr & _ & Ho)
       |(tried & ns & rest & response & w1 & _ & Ha & Hlv)];
    [discriminate|].
  destruct Ha as (replies & lt & sr & w0 & _ & Hu).
  inversion Hlv as [Hc|rrset Hc Hf Hn|rrset tgt more out w2 Hc Hf Hn Ht Hcall
                   |next out w2 Hc Hf He Hne Hcall
                   |names next w2 out w3 Hc Hf He Hau Hns Hne Hcall]; subst.
  - exists qname, ns, w0, rrset. split; [exact Hu|]. split; [exact Hc|].
    split; [exact Hf|].
    assert (Hq : rdtype rrset = qtype).
    { apply find_some in Hf. destruct Hf as [_ Hd]. unfold decides in Hd.
      apply Z.eqb_neq in Hn. rewrite Hn in Hd. now apply Z.eqb_eq. }
    split; [exact Hq|]. now rewrite <- Hq.
  - apply return_call_inv in Hcall. eauto.
  - apply return_call_inv in Hcall. eauto.
  - apply return_call_inv in Hcall. eauto.
Qed.

(** X1.  A response that [_iterative_resolve] returns is the reply that
    some server gave to a query of the requested type, as it came, and it
    is the reply to the last query sent: the world at the end is the one
    that reply left.  It is not an NXDOMAIN response, and the first rrset
    of its answer section that is a CNAME rrset or an rrset of the
    requested type is of the requested type. *)
Theorem returned_response_is_last_reply `{Network} (fuel : nat) (qname : Name)
        (qtype : RdType) (servers : list Server) (w : World) (r : Response)
        (w' : World) :
  _iterative_resolve fuel qname qtype servers w = Some (Return r, w') ->
  exists qname' ns w0 rrset,
    udp qname' qtype ns w0 = (Received r, w')
    /\ rcode_of r <> rcode.NXDOMAIN
    /\ find (decides qtype) (answer r) = Some rrset
    /\ rdtype rrset = qtype.
Proof.
  intros Hr.
  destruct (iterative_resolve_returns_reply fuel _ _ _ _ _ _ Hr)
    as (qname' & ns & w0 & rrset & Hu & Hc & Hf & Hq & _).
  exists qname', ns, w0, rrset. auto.
Qed.

Lemma returned_response_is_last_reply_witness :
  exists qname' ns w0 rrset,
    @udp text_names (scripted example_com) qname' rdatatype.A ns w0
    = (Received example_com_answer,
       [("example.com.", rdatatype.A, "198.41.0.4");
        ("example.com.", rdatatype.A, "192.5.6.30");
        ("example.com.", rdatatype.A, "199.43.135.53")]%string)
    /\ rcode_of example_com_answer <> rcode.NXDOMAIN
    /\ find (@decides text_names rdatatype.A) (answer example_com_answer)
       = Some rrset
    /\ @rdtype text_names rrset = rdatatype.A.
Proof.
  refine (@returned_response_is_last_reply text_names (scripted example_com) 3
            "example.com."%string rdatatype.A ROOT_SERVERS [] _ _ _).
  vm_compute. reflexivity.
Defined.

(** X2.  A call for the type CNAME never returns a response: a CNAME rrset
    in an answer section is always chased, never returned. *)
Theorem cname_query_never_returns `{Network} (fuel : nat) (qname : Name)
        (servers : list Server) (w : World) :
  _iterative_resolve fuel qname rdatatype.CNAME servers w = None
  \/ exists e w',
      _iterative_resolve fuel qname rdatatype.CNAME servers w
      = Some (Raise e, w').
Proof.
  destruct (_iterative_resolve fuel qname rdatatype.CNAME servers w)
    as [[[r|e] w']|] eqn:Hr; [|right; eauto|left; reflexivity].
  exfalso.
  destruct (iterative_resolve_returns_reply fuel _ _ _ _ _ _ Hr)
    as (_ & _ & _ & _ & _ & _ & _ & _ & Hn).
  now apply Hn.
Qed.

(** ** Where an NXDomainError comes from *)

(** X3.  [_iterative_resolve] raises [NXDomainError] only when a server
    answered with status NXDOMAIN, in the call itself or in a call reached
    through CNAME chases, glue hops and hops to resolved name servers; the
    message names the name that was asked there, and the world at the end
    is the one that reply left. *)
Theorem nxdomain_only_from_a_server `{Network} (fuel : nat) :
  forall qname qtype servers w msg w',
    _iterative_resolve fuel qname qtype servers w
    = Some (Raise (NXDomainError msg), w') ->
    nxdomain_from fuel qname qtype servers w msg w'.
Proof.
  induction fuel as [|fuel IH]; intros qname qtype servers w msg w' Hr;
    [discriminate|].
  destruct (iterative_resolve_cases _ _ _ _ _ _ _ Hr)
    as [(replies & lt & sr & _ & Ho)
       |(tried & ns & rest & response & w1 & -> & Ha & Hlv)].
  - exfalso. unfold exhaustion_failure in Ho.
    destruct (existsb is_received replies); [discriminate|].
    destruct (last_timed_out servers replies); discriminate.
  - inversion Hlv as [Hc|rrset Hc Hf Hn|rrset tgt more out w2 Hc Hf Hn Ht Hcall
                     |next out w2 Hc Hf He Hne Hcall
                     |names next w2 out w3 Hc Hf He Hau Hns Hne Hcall]; subst.
    + eapply nx_here; eauto.
    + apply return_call_inv in Hcall. eapply nx_cname; eauto.
    + apply return_call_inv in Hcall. eapply nx_glue; eauto.
    + apply return_call_inv in Hcall. eapply nx_referral; eauto.
Qed.

Lemma nxdomain_only_from_a_server_witness :
  @nxdomain_from text_names (scripted dangling_alias) 3 "alias.example."%string
     rdatatype.A ROOT_SERVERS []
     "Domain gone.example. does not exist (NXDOMAIN)"
     [("alias.example.", rdatatype.A, "198.41.0.4");
      ("alias.example.", rdatatype.A, "192.0.2.53");
      ("gone.example.", rdatatype.A, "198.41.0.4")]%string.
Proof.
  apply (@nxdomain_only_from_a_server text_names (scripted dangling_alias) 3).
  vm_compute. reflexivity.
Defined.

(** ** Timeouts and transport errors *)

Lemma loop_runs_silent `{Network} self qname qtype servers st replies st' :
  loop_runs self qname qtype servers st replies st' ->
  existsb is_received replies = false ->
  snd st' = ask_all qname qtype servers (snd st).
Proof.
  induction 1 as [st|ns rest lt sr w lt1 sr1 w1 replies st' Ht Hl IH];
    intros He.
  - reflexivity.
  - cbn [existsb] in He. apply orb_false_iff in He. destruct He as [Hr He].
    rewrite (IH He). cbn [snd ask_all fold_left].
    unfold try_server in Ht.
    destruct (udp qname qtype ns w) as [[response| |] w0];
      cbn [fst snd is_received] in *; try discriminate; now inv Ht.
Qed.

Lemma iterative_resolve_silent `{Network} (fuel : nat) (qname : Name)
        (qtype : RdType) (servers : list Server) (w : World) (e : Exn)
        (w' : World) :
  _iterative_resolve (S fuel) qname qtype servers w = Some (Raise e, w') ->
  (exists m, e = TimeoutError m) \/ (exists m, e = DNSResolutionError m) ->
  exists replies lt,
    loop_runs (_iterative_resolve fuel) qname qtype servers (None, 0, w)
              replies (lt, 0, w')
    /\ existsb is_received replies = false
    /\ w' = ask_all qname qtype servers w
    /\ e = match last_timed_out servers replies with
           | Some ns =>
               TimeoutError ("DNS query timed out for " ++ to_text qname
                               ++ " at server " ++ ns)
           | None =>
               DNSResolutionError ("Unable to resolve domain " ++ to_text qname
                                     ++ ": all nameservers failed")
           end.
Proof.
  intros Hr Hk.
  destruct (iterative_resolve_cases _ _ _ _ _ _ _ Hr)
    as [(replies & lt & sr & Hl & Ho)
       |(tried & ns & rest & response & w1 & _ & _ & Hlv)].
  - injection Ho as Ho. unfold exhaustion_failure in Ho.
    destruct (existsb is_received replies) eqn:Hex.
    { destruct Hk as [[m ->]|[m ->]]; discriminate Ho. }
    pose proof (loop_runs_locals _ _ _ _ _ _ _ _ _ _ _ Hl) as [Hsr _].
    pose proof Hex as Hlen.
    rewrite existsb_received_count in Hlen. apply Nat.ltb_ge in Hlen.
    assert (Hz : sr = 0) by lia. rewrite Hz in Hl.
    exists replies, lt. split; [exact Hl|]. split; [exact Hex|].
    split; [|exact Ho].
    exact (loop_runs_silent _ _ _ _ _ _ _ Hl Hex).
  - exfalso. destruct Hk as [[m ->]|[m ->]]; exact Hlv.
Qed.


(** X4.  [_iterative_resolve] raises [TimeoutError] or the generic
    [DNSResolutionError] only when none of the servers it was given
    responded.  It has then asked each of them once, in order, and nothing
    else; the error is the one of the timeout of the last server that timed
    out, or the generic one if none did.  A [TimeoutError] or
    [DNSResolutionError] of a call that the engine makes to itself never
    leaves the caller. *)
Theorem silence_is_of_the_own_servers `{Network} (fuel : nat) (qname : Name)
        (qtype : RdType) (servers : list Server) (w : World) (e : Exn)
        (w' : World) :
  _iterative_resolve (S fuel) qname qtype servers w = Some (Raise e, w') ->
  (exists m, e = TimeoutError m) \/ (exists m, e = DNSResolutionError m) ->
  exists replies lt,
    loop_runs (_iterative_resolve fuel) qname qtype servers (None, 0, w)
              replies (lt, 0, w')
    /\ existsb is_received replies = false
    /\ w' = ask_all qname qtype servers w
    /\ e = match last_timed_out servers replies with
           | Some ns =>
               TimeoutError ("DNS query timed out for " ++ to_text qname
                               ++ " at server " ++ ns)
           | None =>
               DNSResolutionError ("Unable to resolve domain " ++ to_text qname
                                     ++ ": all nameservers failed")
           end.
Proof.
  apply iterative_resolve_silent.
Qed.

Lemma silence_is_of_the_own_servers_witness :
  exists replies lt,
    loop_runs (@_iterative_resolve text_names (scripted silent) 0)
      "example.org."%string rdatatype.A
      ["192.0.2.1"; "192.0.2.2"; "192.0.2.3"]%string (None, 0, [])
      replies
      (lt, 0, [("example.org.", rdatatype.A, "192.0.2.1");
               ("example.org.", rdatatype.A, "192.0.2.2");
               ("example.org.", rdatatype.A, "192.0.2.3")]%string)
    /\ existsb is_received replies = false
    /\ [("example.org.", rdatatype.A, "192.0.2.1");
        ("example.org.", rdatatype.A, "192.0.2.2");
        ("example.org.", rdatatype.A, "192.0.2.3")]%string
       = @ask_all text_names (scripted silent) "example.org."%string rdatatype.A
           ["192.0.2.1"; "192.0.2.2"; "192.0.2.3"]%string []
    /\ TimeoutError "DNS query timed out for example.org. at server 192.0.2.3"
       = match last_timed_out ["192.0.2.1"; "192.0.2.2"; "192.0.2.3"]%string
                 replies with
         | Some ns =>
             TimeoutError ("DNS query timed out for "
                             ++ @to_text text_names "example.org."%string
                             ++ " at server " ++ ns)
         | None =>
             DNSResolutionError ("Unable to resolve domain "
                                   ++ @to_text text_names "example.org."%string
                                   ++ ": all nameservers failed")
         end.
Proof.
  refine (@silence_is_of_the_own_servers text_names (scripted silent) 0
            "example.org."%string rdatatype.A
            ["192.0.2.1"; "192.0.2.2"; "192.0.2.3"]%string [] _ _ _ _).
  - vm_compute. reflexivity.
  - left. eexists. reflexivity.
Defined.

(** ** Server sets *)

Section NonEmpty.
Context `{Net : Network}.
Variable self : Name -> RdType -> list Server -> M Response.

Lemma on_nonempty_same qname qtype servers :
  servers <> [] -> on_nonempty self qname qtype servers = self qname qtype servers.
Proof. destruct servers; [congruence|reflexivity]. Qed.

Lemma on_response_nonempty qname qtype response w :
  on_response (on_nonempty self) qname qtype response w
  = on_response self qname qtype response w.
Proof.
  destruct (Z.eq_dec (rcode_of response) rcode.NXDOMAIN) as [Hc|Hc].
  { now rewrite !on_response_nxdomain. }
  destruct (find (decides qtype) (answer response)) as [rrset|] eqn:Hf.
  { now rewrite !(on_response_decided _ _ _ _ rrset _ Hc Hf). }
  rewrite !on_response_undecided by assumption.
  destruct (extend_addresses (additional response) []) as [|a l] eqn:He.
  - rewrite !follow_additional_no_glue by assumption.
    unfold follow_authority.
    destruct (truthy (authority response)); [|reflexivity].
    destruct (authority_loop qname qtype (authority response) [] false)
      as [ns_names|e]; [|reflexivity].
    destruct (truthy ns_names); [|reflexivity].
    assert (Hns : forall names next w0,
               ns_loop (on_nonempty self) names next w0
               = ns_loop self names next w0).
    { induction names as [|n names IH]; cbn [ns_loop]; intros next w0;
        [reflexivity|].
      destruct (from_text n) as [q|]; [|apply IH].
      change (on_nonempty self q rdatatype.A ROOT_SERVERS w0)
        with (self q rdatatype.A ROOT_SERVERS w0).
      destruct (self q rdatatype.A ROOT_SERVERS w0) as [[[r|e] w1]|];
        [|apply IH|reflexivity].
      destruct (truthy (answer r)); apply IH. }
    rewrite Hns. destruct (ns_loop self ns_names [] w) as [[next w2]|];
      [|reflexivity].
    destruct next as [|a l]; reflexivity.
  - rewrite !follow_additional_glue by (rewrite He; discriminate).
    rewrite He. reflexivity.
Qed.

Lemma for_ns_nonempty qname qtype servers lt sr w :
  for_ns (on_nonempty self) qname qtype servers lt sr w
  = for_ns self qname qtype servers lt sr w.
Proof.
  revert lt sr w.
  induction servers as [|ns rest IH]; cbn [for_ns]; intros lt sr w;
    [reflexivity|].
  unfold try_server.
  destruct (udp qname qtype ns w) as [[response| |] w1]; try apply IH.
  rewrite on_response_nonempty.
  destruct (on_response self qname qtype response w1)
    as [[[[r|]|e] w2]|]; try reflexivity; try apply IH.
  destruct e; try reflexivity; apply IH.
Qed.
End NonEmpty.

(** X5.  The engine never calls itself with an empty server set: the loop
    over the servers is the same when the callee does not come back from
    such a call.  Called with no server at all, it sends no query and
    raises the generic [DNSResolutionError]. *)
Theorem server_sets_are_not_empty `{Network} :
  (forall self qname qtype servers lt sr w,
      for_ns (on_nonempty self) qname qtype servers lt sr w
      = for_ns self qname qtype servers lt sr w)
  /\ (forall fuel qname qtype w,
         _iterative_resolve (S fuel) qname qtype [] w
         = Some (Raise (DNSResolutionError
                          ("Unable to resolve domain " ++ to_text qname
                             ++ ": all nameservers failed")), w)).
Proof.
  split.
  - intros. apply for_ns_nonempty.
  - reflexivity.
Qed.

(** ** The names of a referral *)

Lemma authority_loop_return `{NameLib} qname qtype rrsets ns_names found names :
  authority_loop qname qtype rrsets ns_names found = Return names ->
  names = ns_names ++ ns_targets rrsets.
Proof.
  revert ns_names found.
  induction rrsets as [|rrset rest IH]; cbn [authority_loop];
    intros ns_names found Ha.
  - inv Ha. unfold ns_targets. cbn. now rewrite app_nil_r.
  - unfold ns_targets. cbn [filter].
    destruct (rdtype rrset =? rdatatype.NS)%Z.
    + apply IH in Ha. rewrite Ha. cbn [flat_map]. now rewrite app_assoc.
    + destruct (rdtype rrset =? rdatatype.SOA)%Z; [|eauto].
      destruct (negb found && (qtype =? rdatatype.A)%Z); [discriminate|eauto].
Qed.

Lemma authority_loop_raise_message `{NameLib} qname qtype rrsets ns_names found e :
  authority_loop qname qtype rrsets ns_names found = Raise e ->
  e = NoRecordError ("No A record found for " ++ to_text qname).
Proof.
  revert ns_names found.
  induction rrsets as [|rrset rest IH]; cbn [authority_loop];
    intros ns_names found Ha.
  - discriminate.
  - destruct (rdtype rrset =? rdatatype.NS)%Z; [eauto|].
    destruct (rdtype rrset =? rdatatype.SOA)%Z; [|eauto].
    destruct (negb found && (qtype =? rdatatype.A)%Z); [|eauto].
    now inv Ha.
Qed.

(** X6.  What the pass over the authority section gives.  When the
    requested type is not A, or the section has no SOA rrset, it gathers
    the targets of all the NS rrsets, in the order of the section, and
    raises nothing.  When the requested type is A and the section has an
    SOA rrset and no NS rrset, it raises [NoRecordError] with the message
    that names the query name. *)
Theorem authority_section_read `{NameLib} (qname : Name) (qtype : RdType)
        (rrsets : list RRset) :
  (qtype <> rdatatype.A
   \/ existsb (fun rrset => (rdtype rrset =? rdatatype.SOA)%Z) rrsets = false ->
   authority_loop qname qtype rrsets [] false = Return (ns_targets rrsets))
  /\ (qtype = rdatatype.A ->
      existsb (fun rrset => (rdtype rrset =? rdatatype.SOA)%Z) rrsets = true ->
      existsb (fun rrset => (rdtype rrset =? rdatatype.NS)%Z) rrsets = false ->
      authority_loop qname qtype rrsets [] false
      = Raise (NoRecordError ("No A record found for " ++ to_text qname))).
Proof.
  split.
  - intros Hn.
    destruct (authority_loop qname qtype rrsets [] false) as [names|e] eqn:Ha.
    + now rewrite (authority_loop_return _ _ _ _ _ _ Ha).
    + exfalso.
      destruct (proj1 (authority_loop_raises qname qtype rrsets [] false)
                      (ex_intro _ e Ha))
        as (_ & Hq & before & rrset & after & Hl & Hs & _).
      destruct Hn as [Hn|Hn]; [contradiction|].
      assert (Hi : In rrset rrsets) by (rewrite Hl; apply in_elt).
      pose proof (existsb_false_In _ _ _ Hn Hi) as Hf. cbn beta in Hf.
      rewrite Hs in Hf. discriminate Hf.
  - intros Hq Hsoa Hns.
    destruct (authority_loop qname qtype rrsets [] false) as [names|e] eqn:Ha.
    + exfalso.
      assert (Hr : exists e, authority_loop qname qtype rrsets [] false = Raise e).
      { apply authority_loop_raises. split; [reflexivity|]. split; [exact Hq|].
        apply existsb_exists in Hsoa. destruct Hsoa as (rrset & Hi & Hs).
        clear Ha. induction rrsets as [|x rest IH]; [contradiction|].
        cbn [existsb] in Hns. apply orb_false_iff in Hns.
        destruct Hns as [Hx Hns].
        destruct (rdtype x =? rdatatype.SOA)%Z eqn:Hxs.
        - exists [], x, rest. repeat split. now apply Z.eqb_eq.
        - destruct Hi as [->|Hi]; [rewrite Hs in Hxs; discriminate|].
          destruct (IH Hi Hns) as (before & r0 & after & Hl & Hr0 & Hb).
          exists (x :: before), r0, after. rewrite Hl.
          repeat split; [exact Hr0|]. cbn [existsb]. now rewrite Hx. }
      destruct Hr as [e He]. congruence.
    + now rewrite (authority_loop_raise_message _ _ _ _ _ _ Ha).
Qed.

Lemma authority_section_read_witness :
  @authority_loop text_names "example.com."%string rdatatype.A
     [rr_NS "com." ["a.gtld-servers.net."; "b.gtld-servers.net."]%string;
      rr_A "a.gtld-servers.net." 172800%Z ["192.5.6.30"%string];
      rr_NS "com." ["c.gtld-servers.net."%string]] [] false
  = Return ["a.gtld-servers.net."; "b.gtld-servers.net.";
            "c.gtld-servers.net."]%string
  /\ @authority_loop text_names "example.com."%string rdatatype.A
       [rr_SOA "example.com."] [] false
     = Raise (NoRecordError "No A record found for example.com.").
Proof.
  split.
  - refine (proj1 (@authority_section_read text_names "example.com."%string
                     rdatatype.A _) _).
    right. reflexivity.
  - refine (proj2 (@authority_section_read text_names "example.com."%string
                     rdatatype.A _) _ _ _); reflexivity.
Defined.

(** ** Strings *)

Lemma string_length_append (a b : string) :
  String.length (a ++ b) = String.length a + String.length b.
Proof. induction a as [|c a IH]; cbn; [reflexivity|now rewrite IH]. Qed.

Lemma string_append_assoc (a b c : string) :
  ((a ++ b) ++ c = a ++ b ++ c)%string.
Proof. induction a as [|x a IH]; cbn; [reflexivity|now rewrite IH]. Qed.

Lemma replicate_length (n : nat) (c : ascii) :
  String.length (replicate n c) = n.
Proof. induction n as [|n IH]; cbn; [reflexivity|now rewrite IH]. Qed.

Lemma substring_skip (a s : string) (m : nat) :
  substring (String.length a) m (a ++ s) = substring 0 m s.
Proof. induction a as [|c a IH]; cbn; [reflexivity|exact IH]. Qed.

Lemma substring_prefix (b c : string) :
  substring 0 (String.length b) (b ++ c) = b.
Proof.
  induction b as [|x b IH]; cbn.
  - destruct c; reflexivity.
  - now rewrite IH.
Qed.

(** The text [b] sits in [a ++ b ++ c] at the offset [length a]. *)
Lemma substring_middle (a b c : string) :
  substring (String.length a) (String.length b) (a ++ b ++ c) = b.
Proof. now rewrite substring_skip, substring_prefix. Qed.

Lemma ljust_length (s : string) (width : nat) :
  String.length (ljust s width) = Nat.max width (String.length s).
Proof.
  unfold ljust. rewrite string_length_append, replicate_length. lia.
Qed.

Lemma append_dot_differs (d : string) : (d ++ ".")%string <> d.
Proof.
  intros He. apply (f_equal String.length) in He.
  rewrite string_length_append in He. cbn in He. lia.
Qed.

(** ** The report *)

(** X7.  In the question line the text [IN      A] sits at the offset
    [max 32 (len domain) + 1]; in the answer line it sits at the offset
    [max 29 (len domain + len ttl) + 4].  The two offsets are the same, so
    that the columns are aligned, exactly when the domain and the TTL take
    29 characters or less. *)
Theorem in_columns_align (domain : string) (final_ttl : Z) (final_ip : Server) :
  substring (Nat.max 32 (String.length domain) + 1) 9 (question_line domain)
  = "IN      A"%string
  /\ substring (Nat.max 29 (String.length domain
                            + String.length (str_int final_ttl)) + 4) 9
       (answer_line domain final_ttl final_ip)
     = "IN      A"%string
  /\ (Nat.max 29 (String.length domain + String.length (str_int final_ttl)) + 4
      = Nat.max 32 (String.length domain) + 1
      <-> String.length domain + String.length (str_int final_ttl) <= 29).
Proof.
  split; [|split].
  - unfold question_line.
    replace (ljust domain 32 ++ " IN      A")%string
      with ((ljust domain 32 ++ " ") ++ "IN      A" ++ "")%string
      by (now rewrite string_append_assoc).
    replace (Nat.max 32 (String.length domain) + 1)
      with (String.length (ljust domain 32 ++ " "))
      by (rewrite string_length_append, ljust_length; reflexivity).
    exact (substring_middle _ "IN      A" "").
  - unfold answer_line.
    set (ttl_str := str_int final_ttl).
    set (pad := spaces _).
    replace (domain ++ pad ++ ttl_str ++ "    IN      A       " ++ final_ip)%string
      with ((domain ++ pad ++ ttl_str ++ "    ")
              ++ "IN      A" ++ ("       " ++ final_ip))%string
      by (now rewrite !string_append_assoc).
    replace (Nat.max 29 (String.length domain + String.length ttl_str) + 4)
      with (String.length (domain ++ pad ++ ttl_str ++ "    ")).
    + exact (substring_middle _ "IN      A" _).
    + rewrite !string_length_append. subst pad. unfold spaces.
      rewrite replicate_length. cbn [String.length]. lia.
  - lia.
Qed.

Lemma in_columns_align_witness :
  substring 33 9 (question_line "example.com.") = "IN      A"%string
  /\ substring 33 9 (answer_line "example.com." 300%Z "93.184.216.34")
     = "IN      A"%string
  /\ (33 = 33 <-> 12 + 3 <= 29).
Proof.
  exact (in_columns_align "example.com." 300%Z "93.184.216.34").
Defined.

Lemma final_record_skip `{NameLib} (before after : list RRset) (rrset : RRset) :
  existsb (fun x => (rdtype x =? rdatatype.A)%Z) before = false ->
  rdtype rrset = rdatatype.A ->
  final_record (before ++ rrset :: after)
  = match addresses_of rrset with
    | [] => None
    | address :: _ => Some (address, ttl rrset)
    end.
Proof.
  intros Hb Hr.
  induction before as [|x before IH]; cbn [app final_record].
  - rewrite Hr. reflexivity.
  - cbn [existsb] in Hb. apply orb_false_iff in Hb. destruct Hb as [-> Hb].
    now apply IH.
Qed.

(** X8.  The report shows the first address of the first A rrset of the
    answer section, with the TTL of that rrset: the rrsets before it (the
    CNAME rrsets of a chain) are passed over, and what comes after it is
    not read.  The report has eight lines. *)
Theorem report_shows_first_address `{NameLib} `{Clock}
        (self : DNSQuestResolver) (start now : Time) (current_time : string)
        (domain : string) (response : Response)
        (before after : list RRset) (rrset : RRset)
        (final_ip : Server) (more : list Server) :
  query_start_time self = Some start ->
  answer response = before ++ rrset :: after ->
  existsb (fun x => (rdtype x =? rdatatype.A)%Z) before = false ->
  rdtype rrset = rdatatype.A ->
  addresses_of rrset = final_ip :: more ->
  final_ip <> ""%string ->
  format_output self now current_time domain (Some response)
  = Return (String.concat newline
              ["QUESTION SECTION:";
               question_line (qualify domain);
               "";
               "ANSWER SECTION:";
               answer_line (qualify domain) (ttl rrset) final_ip;
               "";
               "Query time: " ++ str_int (msec_between start now) ++ " msec";
               "WHEN: " ++ current_time]%string).
Proof.
  intros Hs Ha Hb Hr Hadd Hip.
  unfold format_output, output_lines.
  rewrite Ha at 1.
  replace (truthy (before ++ rrset :: after)) with true
    by (destruct before; reflexivity).
  rewrite Ha, (final_record_skip _ _ _ Hb Hr), Hadd, Hs.
  destruct final_ip; [congruence|reflexivity].
Qed.

Lemma report_shows_first_address_witness :
  @format_output text_names msec_clock (@mkResolver msec_clock (Some 100%Z)) 142%Z
     "Tue Nov 03 13:34:00 2026" "www.example.com" (Some cname_with_address)
  = Return (String.concat newline
       ["QUESTION SECTION:";
        "www.example.com.                 IN      A";
        "";
        "ANSWER SECTION:";
        "www.example.com.          300    IN      A       192.0.2.1";
        "";
        "Query time: 42 msec";
        "WHEN: Tue Nov 03 13:34:00 2026"]%string).
Proof.
  refine (@report_shows_first_address text_names msec_clock
            (@mkResolver msec_clock (Some 100%Z)) 100%Z 142%Z _ "www.example.com"%string
            cname_with_address
            [rr_CNAME "www.example.com." "host.example.net."] []
            (rr_A "host.example.net." 300%Z ["192.0.2.1"%string])
            "192.0.2.1"%string [] _ _ _ _ _ _);
    try reflexivity.
  discriminate.
Defined.

Lemma format_output_append_dot `{NameLib} `{Clock} (self : DNSQuestResolver)
      now current_time d r :
  endswith d "." = false ->
  answer r <> [] ->
  format_output self now current_time (d ++ ".") (Some r)
  = format_output self now current_time d (Some r).
Proof.
  intros Hd Hn. unfold format_output. rewrite (truthy_true _ Hn).
  unfold output_lines. now rewrite (qualify_append_dot d Hd).
Qed.

(** X9.  For a domain that does not end in a dot, the report is the same
    with and without the dot exactly when the response has an answer: the
    text for a response without answer names the domain as it was given. *)
Theorem report_trailing_dot `{NameLib} `{Clock} (self : DNSQuestResolver)
        (now : Time) (current_time : string) (d : string)
        (response : option Response) :
  endswith d "." = false ->
  format_output self now current_time (d ++ ".") response
  = format_output self now current_time d response
  <-> exists r, response = Some r /\ answer r <> [].
Proof.
  intros Hd. unfold format_output. split.
  - intros He. destruct response as [r|].
    + destruct (answer r) as [|x l] eqn:Ha.
      * cbn [truthy] in He. injection He as He.
        now apply append_dot_differs in He.
      * exists r. split; [reflexivity|]. rewrite Ha. discriminate.
    + injection He as He. now apply append_dot_differs in He.
  - intros (r & -> & Hn). fold (format_output self now current_time (d ++ ".") (Some r)).
    fold (format_output self now current_time d (Some r)).
    now apply format_output_append_dot.
Qed.

Lemma report_trailing_dot_witness :
  @format_output text_names msec_clock (@mkResolver msec_clock (Some 100%Z))
     142%Z "Tue Nov 03 13:34:00 2026" "example.com." (Some example_com_answer)
  = @format_output text_names msec_clock (@mkResolver msec_clock (Some 100%Z))
      142%Z "Tue Nov 03 13:34:00 2026" "example.com" (Some example_com_answer).
Proof.
  refine (proj2 (@report_trailing_dot text_names msec_clock _ _ _
                   "example.com"%string (Some example_com_answer) eq_refl) _).
  exists example_com_answer. split; [reflexivity|discriminate].
Defined.

Lemma output_lines_after_resolve `{NameLib} `{Clock} (self : DNSQuestResolver)
      start now current_time domain response :
  query_start_time self = Some start ->
  exists rest,
    output_lines self now current_time domain response
    = Return (["QUESTION SECTION:"; question_line (qualify domain); "";
               "ANSWER SECTION:"]%string ++ rest).
Proof.
  intros Hs. unfold output_lines. rewrite Hs.
  destruct (final_record (answer response)) as [[ip t]|]; [destruct (nonempty ip)|];
    rewrite <- !app_assoc; eexists; reflexivity.
Qed.

(** X10.  On a resolver that has not resolved anything, [format_output]
    raises (the [TypeError] of the subtraction from [None]) exactly when
    the response has an answer.  Once [resolve] has come back, with a
    response or with an exception, [query_start_time] is set and
    [format_output] raises nothing, whatever it is given. *)
Theorem report_needs_a_start_time `{Network} `{Clock} :
  (forall now current_time domain response,
      format_output __init__ now current_time domain response
      = Raise (PyException "TypeError")
      <-> exists r, response = Some r /\ answer r <> [])
  /\ (forall fuel self t domain w outcome self' w',
         resolve_method fuel self t domain w = Some (outcome, self', w') ->
         query_start_time self' = Some t
         /\ forall now current_time domain' response,
             exists text,
               format_output self' now current_time domain' response
               = Return text).
Proof.
  split.
  - intros now current_time domain response. unfold format_output. split.
    + intros He. destruct response as [r|]; [|discriminate].
      exists r. split; [reflexivity|].
      destruct (answer r); [discriminate|discriminate].
    + intros (r & -> & Hn). rewrite (truthy_true _ Hn). reflexivity.
  - intros fuel self t domain w outcome self' w' Hr.
    unfold resolve_method in Hr.
    destruct (resolve fuel domain w) as [[out0 w0]|]; [|discriminate].
    inv Hr. split; [reflexivity|].
    intros now current_time domain' response. unfold format_output.
    destruct response as [r|]; [|eauto].
    destruct (truthy (answer r)); [|eauto].
    destruct (output_lines_after_resolve
                (@mkResolver _ (Some t)) t now current_time domain' r eq_refl)
      as [rest ->].
    eauto.
Qed.

Lemma report_needs_a_start_time_witness :
  @format_output text_names msec_clock (@__init__ msec_clock) 142%Z
     "Tue Nov 03 13:34:00 2026" "example.com" (Some example_com_answer)
  = Raise (PyException "TypeError")
  /\ exists text,
      @format_output text_names msec_clock (@mkResolver msec_clock (Some 100%Z))
        142%Z "Tue Nov 03 13:34:00 2026" "example.com" (Some example_com_answer)
      = Return text.
Proof.
  split.
  - refine (proj2 (proj1 (@report_needs_a_start_time text_names
                            (scripted example_com) msec_clock) _ _ _ _) _).
    exists example_com_answer. split; [reflexivity|discriminate].
  - refine (proj2 (proj2 (@report_needs_a_start_time text_names
                            (scripted silent) msec_clock)
                         1 (@__init__ msec_clock) 100%Z "example.com"%string []
                         _ _ _ _) _ _ _ _).
    vm_compute. reflexivity.
Defined.

(** ** The command line *)

(** [resolve] fails at once on a text that is not a name, and otherwise
    passes on what the engine gives from the root servers, the generic
    failure being wrapped. *)
Lemma resolve_cases `{Network} fuel domain w outcome w' :
  resolve fuel domain w = Some (outcome, w') ->
  (from_text (qualify domain) = None
   /\ outcome = Raise (PyException "dns.name.from_text") /\ w' = w)
  \/ (exists qname out0,
         from_text (qualify domain) = Some qname
         /\ _iterative_resolve fuel qname rdatatype.A ROOT_SERVERS w
            = Some (out0, w')
         /\ match out0 with
            | Return r => outcome = Return r
            | Raise (DNSResolutionError m) =>
                outcome = Raise (DNSResolutionError
                                   ("Failed to resolve " ++ qualify domain
                                      ++ ": " ++ m))
            | Raise (PyException m) => False
            | Raise e => outcome = Raise e
            end).
Proof.
  unfold resolve. intros Hr.
  destruct (from_text (qualify domain)) as [qname|]; [|inv Hr; auto].
  right. exists qname.
  destruct (_iterative_resolve fuel qname rdatatype.A ROOT_SERVERS w)
    as [[out0 w0]|] eqn:He; [|discriminate].
  exists out0.
  destruct out0 as [r|e].
  - inv Hr. auto.
  - pose proof (iterative_resolve_classified _ _ _ _ _ _ _ He) as Hc.
    destruct e; inv Hr; auto.
Qed.

Lemma resolve_return_answers `{Network} fuel domain w r w' :
  resolve fuel domain w = Some (Return r, w') -> answer r <> [].
Proof.
  intros Hr.
  destruct (resolve_cases _ _ _ _ _ Hr)
    as [(_ & Ho & _)|(qname & out0 & _ & He & Ho)]; [discriminate|].
  destruct out0 as [r0|e]; [|destruct e; (discriminate || contradiction)].
  inv Ho.
  destruct (iterative_resolve_answers _ _ _ _ _ _ _ He) as (rrset & Hi & _).
  intros Hn. rewrite Hn in Hi. contradiction.
Qed.

(** What [main] does with one argument, by what [resolve] gives. *)
Lemma main_cases `{Network} `{Clock} fuel prog domain clock w out code w' :
  main fuel [prog; domain] clock w = Some (out, code, w') ->
  (exists r rest,
      resolve fuel domain w = Some (Return r, w')
      /\ code = 0%Z
      /\ out = [String.concat newline
                  (["QUESTION SECTION:"; question_line (qualify domain); "";
                    "ANSWER SECTION:"]%string ++ rest)]
      /\ format_output (@mkResolver _ (Some (resolve_time clock)))
           (format_time clock) (format_date clock) domain (Some r)
         = Return (String.concat newline
                     (["QUESTION SECTION:"; question_line (qualify domain); "";
                       "ANSWER SECTION:"]%string ++ rest)))
  \/ (exists e,
         resolve fuel domain w = Some (Raise e, w')
         /\ code = 1%Z
         /\ out = [error_line e]).
Proof.
  unfold main, resolve_method. intros Hm.
  destruct (resolve fuel domain w) as [[[r|e] w0]|] eqn:Hr; [| |discriminate].
  - left.
    assert (Hf : exists rest,
               format_output (@mkResolver _ (Some (resolve_time clock)))
                 (format_time clock) (format_date clock) domain (Some r)
               = Return (String.concat newline
                           (["QUESTION SECTION:"; question_line (qualify domain);
                             ""; "ANSWER SECTION:"]%string ++ rest))).
    { unfold format_output.
      rewrite (truthy_true _ (resolve_return_answers _ _ _ _ _ Hr)).
      destruct (output_lines_after_resolve
                  (@mkResolver _ (Some (resolve_time clock))) (resolve_time clock)
                  (format_time clock) (format_date clock) domain r eq_refl)
        as [rest ->].
      eauto. }
    destruct Hf as [rest Hf]. rewrite Hf in Hm. inv Hm.
    exists r, rest. auto.
  - right. inv Hm. exists e. auto.
Qed.

(** X11.  [main] exits with status 0 exactly when it was given one
    argument and [resolve] returned a response; it has then printed one
    text, the report, which starts with the question section for the
    qualified domain (never the text for a missing answer).  In every
    other case the status is 1. *)
Theorem main_exit_status `{Network} `{Clock} (fuel : nat) (argv : list string)
        (clock : Readings) (w : World) (out : list string) (code : Z)
        (w' : World) :
  main fuel argv clock w = Some (out, code, w') ->
  (code = 0%Z \/ code = 1%Z)
  /\ (code = 0%Z
      <-> exists prog domain r,
          argv = [prog; domain]
          /\ resolve fuel domain w = Some (Return r, w'))
  /\ (forall prog domain,
         argv = [prog; domain] ->
         code = 0%Z ->
         exists rest,
           out = [String.concat newline
                    (["QUESTION SECTION:"; question_line (qualify domain); "";
                      "ANSWER SECTION:"]%string ++ rest)]).
Proof.
  intros Hm.
  assert (Husage : forall l,
             (forall prog domain, l <> [prog; domain]) ->
             main fuel l clock w = Some (out, code, w') ->
             code = 1%Z).
  { intros l Hl Hu. unfold main in Hu.
    destruct l as [|a [|b [|c l]]]; try (now inv Hu).
    now elim (Hl a b). }
  destruct argv as [|prog [|domain [|c l]]].
  1,2,4: assert (Hc : code = 1%Z)
    by (eapply Husage; [|exact Hm]; intros; discriminate);
    subst code; split; [now right|]; split;
    [split; [discriminate|intros (p & d & r & Ha & _); discriminate]
    |intros p d Ha; discriminate].
  destruct (main_cases _ _ _ _ _ _ _ _ Hm)
    as [(r & rest & Hr & -> & -> & _)|(e & Hr & -> & ->)].
  - split; [now left|]. split.
    + split; [intros _; exists prog, domain, r; auto|reflexivity].
    + intros p d Ha _. inv Ha. eauto.
  - split; [now right|]. split.
    + split; [discriminate|].
      intros (p & d & r & Ha & Hr'). inv Ha. congruence.
    + intros p d Ha Hc. discriminate Hc.
Qed.

Lemma main_exit_status_witness :
  exists prog domain r,
    ["dnsquest"; "example.com"]%string = [prog; domain]
    /\ @resolve text_names (scripted example_com) 3 domain [] 
       = Some (Return r,
               [("example.com.", rdatatype.A, "198.41.0.4");
                ("example.com.", rdatatype.A, "192.5.6.30");
                ("example.com.", rdatatype.A, "199.43.135.53")]%string).
Proof.
  refine (proj1 (proj1 (proj2 (@main_exit_status text_names (scripted example_com)
            msec_clock 3 ["dnsquest"; "example.com"]%string
            (@mkReadings msec_clock 100%Z 142%Z "Tue Nov 03 13:34:00 2026") []
            _ 0%Z _ _))) eq_refl).
  vm_compute. reflexivity.
Defined.

Lemma report_first_letter (x : string) (l : list string) :
  exists tail,
    String.concat newline
      (["QUESTION SECTION:"; x; ""; "ANSWER SECTION:"]%string ++ l)
    = String "Q" tail.
Proof. eexists. cbn. reflexivity. Qed.

(** X12.  With one argument, [main] prints the line [Unexpected Error: ...]
    exactly when the text of the domain, with its final dot, is not a name
    for the DNS library; it has then sent no query.  The engine itself
    gives [main] nothing to report as unexpected. *)
Theorem unexpected_error_is_a_bad_name `{Network} `{Clock} (fuel : nat)
        (prog domain : string) (clock : Readings) (w : World)
        (out : list string) (code : Z) (w' : World) :
  main fuel [prog; domain] clock w = Some (out, code, w') ->
  ((exists m, out = [("Unexpected Error: " ++ m)%string])
   <-> from_text (qualify domain) = None)
  /\ (from_text (qualify domain) = None -> code = 1%Z /\ w' = w).
Proof.
  intros Hm.
  destruct (main_cases _ _ _ _ _ _ _ _ Hm)
    as [(r & rest & Hr & -> & -> & _)|(e & Hr & -> & ->)].
  - destruct (resolve_cases _ _ _ _ _ Hr)
      as [(_ & Ho & _)|(qname & out0 & Hq & _)]; [discriminate|].
    split.
    + split; [|congruence].
      intros [m Hu]. exfalso.
      destruct (report_first_letter (question_line (qualify domain)) rest)
        as [tail Ht].
      rewrite Ht in Hu. discriminate Hu.
    + congruence.
  - destruct (resolve_cases _ _ _ _ _ Hr)
      as [(Hq & Ho & ->)|(qname & out0 & Hq & He & Ho)].
    + inv Ho. split; [|auto]. split; [auto|]. intros _.
      exists "dns.name.from_text"%string. reflexivity.
    + split; [|congruence]. split; [|congruence].
      intros [m Hu]. exfalso.
      destruct out0 as [r0|e0]; [discriminate|].
      destruct e0; try contradiction; inv Ho; discriminate Hu.
Qed.

Lemma unexpected_error_is_a_bad_name_witness :
  @main checked_names unreachable msec_clock 1
     ["dnsquest"; "bad..name"]%string
     (@mkReadings msec_clock 100%Z 142%Z "Tue Nov 03 13:34:00 2026") 0
  = Some (["Unexpected Error: dns.name.from_text"%string], 1%Z, 0)
  /\ ((exists m,
          ["Unexpected Error: dns.name.from_text"%string]
          = [("Unexpected Error: " ++ m)%string])
      <-> @from_text checked_names (qualify "bad..name") = None)
  /\ (@from_text checked_names (qualify "bad..name") = None ->
      1%Z = 1%Z /\ 0 = 0).
Proof.
  split; [vm_compute; reflexivity|].
  refine (@unexpected_error_is_a_bad_name checked_names unreachable msec_clock 1
            "dnsquest"%string "bad..name"%string
            (@mkReadings msec_clock 100%Z 142%Z "Tue Nov 03 13:34:00 2026")
            0 _ 1%Z 0 _).
  vm_compute. reflexivity.
Defined.

Lemma last_timed_out_In `{NameLib} (servers : list Server) (replies : list Reply)
      (ns : Server) :
  last_timed_out servers replies = Some ns -> In ns servers.
Proof.
  revert replies.
  induction servers as [|s servers IH]; intros replies Hl; [discriminate|].
  destruct replies as [|reply replies]; [discriminate|].
  cbn [last_timed_out] in Hl.
  destruct (last_timed_out servers replies) as [ns'|] eqn:Hr.
  - inv Hl. right. eauto.
  - destruct reply; inv Hl. now left.
Qed.

Lemma loop_runs_length `{Network} self qname qtype servers st replies st' :
  loop_runs self qname qtype servers st replies st' ->
  List.length replies = List.length servers.
Proof.
  induction 1; cbn [List.length]; congruence.
Qed.

(** X13.  With one argument that is a name, [main] prints a
    [Timeout Error] or a [DNS Resolution Error] line only when no root
    server has responded: the loop of the first call went through the 13
    root servers, and none of the 13 replies is a response.  It has then
    asked each of the 13 root servers once for the qualified name, and
    nothing else: the line is the timeout at a root server, or the generic
    failure wrapped by [resolve]. *)
Theorem silent_roots_lines `{Network} `{Clock} (fuel : nat)
        (prog domain : string) (clock : Readings) (w : World)
        (out : list string) (code : Z) (w' : World) (qname : Name) :
  main fuel [prog; domain] clock w = Some (out, code, w') ->
  from_text (qualify domain) = Some qname ->
  (exists m, out = [("Timeout Error: " ++ m)%string]
             \/ out = [("DNS Resolution Error: " ++ m)%string]) ->
  code = 1%Z
  /\ w' = ask_all qname rdatatype.A ROOT_SERVERS w
  /\ ((exists ns,
          In ns ROOT_SERVERS
          /\ out = [("Timeout Error: DNS query timed out for " ++ to_text qname
                       ++ " at server " ++ ns)%string])
      \/ out = [("DNS Resolution Error: Failed to resolve " ++ qualify domain
                   ++ ": Unable to resolve domain " ++ to_text qname
                   ++ ": all nameservers failed")%string])
  /\ (exists fuel' replies lt,
         fuel = S fuel'
         /\ loop_runs (_iterative_resolve fuel') qname rdatatype.A ROOT_SERVERS
                      (None, 0, w) replies (lt, 0, w')
         /\ List.length replies = 13
         /\ existsb is_received replies = false).
Proof.
  intros Hm Hq [m Hout].
  destruct (main_cases _ _ _ _ _ _ _ _ Hm)
    as [(r & rest & Hr & -> & -> & _)|(e & Hr & -> & ->)].
  { exfalso.
    destruct (report_first_letter (question_line (qualify domain)) rest)
      as [tail Ht].
    rewrite Ht in Hout. destruct Hout as [Hu|Hu]; discriminate Hu. }
  split; [reflexivity|].
  destruct (resolve_cases _ _ _ _ _ Hr)
    as [(Hn & _)|(qname' & out0 & Hq' & He & Ho)]; [congruence|].
  assert (qname' = qname) by congruence. subst qname'.
  destruct fuel as [|fuel]; [discriminate|].
  destruct out0 as [r0|e0]; [discriminate Ho|].
  assert (Hk : (exists m0, e0 = TimeoutError m0)
               \/ (exists m0, e0 = DNSResolutionError m0)).
  { destruct e0; try contradiction; eauto;
      inv Ho; destruct Hout as [Hu|Hu]; discriminate Hu. }
  destruct (iterative_resolve_silent _ _ _ _ _ _ _ He Hk)
    as (replies & lt & Hruns & Hnone & Hw & Hex).
  split; [exact Hw|]. split.
  - destruct (last_timed_out ROOT_SERVERS replies) as [ns|] eqn:Hl.
    + left. exists ns. split; [eapply last_timed_out_In; eauto|].
      subst e0. inv Ho. reflexivity.
    + right. subst e0. inv Ho. reflexivity.
  - exists fuel, replies, lt. split; [reflexivity|]. split; [exact Hruns|].
    split; [|exact Hnone].
    exact (loop_runs_length _ _ _ _ _ _ _ Hruns).
Qed.

Lemma silent_roots_lines_witness :
  1%Z = 1%Z
  /\ map (fun ns => ("example.org."%string, rdatatype.A, ns)) ROOT_SERVERS
     = @ask_all text_names (scripted silent) "example.org."%string rdatatype.A
         ROOT_SERVERS []
  /\ ((exists ns,
          In ns ROOT_SERVERS
          /\ ["Timeout Error: DNS query timed out for example.org. at server 202.12.27.33"%string]
             = [("Timeout Error: DNS query timed out for "
                   ++ @to_text text_names "example.org."%string
                   ++ " at server " ++ ns)%string])
      \/ ["Timeout Error: DNS query timed out for example.org. at server 202.12.27.33"%string]
         = [("DNS Resolution Error: Failed to resolve " ++ qualify "example.org"
               ++ ": Unable to resolve domain "
               ++ @to_text text_names "example.org."%string
               ++ ": all nameservers failed")%string])
  /\ (exists fuel' replies lt,
         1 = S fuel'
         /\ @loop_runs text_names (scripted silent)
              (@_iterative_resolve text_names (scripted silent) fuel')
              "example.org."%string rdatatype.A ROOT_SERVERS
              (None, 0, []) replies
              (lt, 0,
               map (fun ns => ("example.org."%string, rdatatype.A, ns))
                   ROOT_SERVERS)
         /\ List.length replies = 13
         /\ existsb (@is_received text_names) replies = false).
Proof.
  refine (@silent_roots_lines text_names (scripted silent) msec_clock 1
            "dnsquest"%string "example.org"%string
            (@mkReadings msec_clock 100%Z 142%Z "Tue Nov 03 13:34:00 2026")
            [] _ 1%Z _ "example.org."%string _ eq_refl _).
  - vm_compute. reflexivity.
  - eexists. left. reflexivity.
Defined.

Lemma resolve_append_dot `{Network} (fuel : nat) (d : string) (w : World) :
  endswith d "." = false ->
  resolve fuel (d ++ ".") w = resolve fuel d w.
Proof.
  intros Hd. unfold resolve. now rewrite (qualify_append_dot d Hd).
Qed.

(** X14.  [main] does the same for a domain with and without its final
    dot, whatever the name of the program: the same lines, the same exit
    status, the same queries. *)
Theorem main_trailing_dot `{Network} `{Clock} (fuel : nat)
        (prog prog' d : string) (clock : Readings) (w : World) :
  endswith d "." = false ->
  main fuel [prog; (d ++ ".")%string] clock w = main fuel [prog'; d] clock w.
Proof.
  intros Hd. unfold main, resolve_method.
  rewrite (resolve_append_dot fuel d w Hd).
  destruct (resolve fuel d w) as [[[r|e] w']|] eqn:Hr; try reflexivity.
  now rewrite (format_output_append_dot _ _ _ _ _ Hd
                 (resolve_return_answers _ _ _ _ _ Hr)).
Qed.

Lemma main_trailing_dot_witness :
  @main text_names (scripted example_com) msec_clock 3
     ["python -m dnsquest"; "example.com."]%string
     (@mkReadings msec_clock 100%Z 142%Z "Tue Nov 03 13:34:00 2026") []
  = @main text_names (scripted example_com) msec_clock 3
      ["dnsquest"; "example.com"]%string
      (@mkReadings msec_clock 100%Z 142%Z "Tue Nov 03 13:34:00 2026") [].
Proof.
  exact (@main_trailing_dot text_names (scripted example_com) msec_clock 3
           "python -m dnsquest"%string "dnsquest"%string "example.com"%string
           (@mkReadings msec_clock 100%Z 142%Z "Tue Nov 03 13:34:00 2026") []
           eq_refl).
Defined.

(** ** The log of a run *)

Lemma referred_app `{NameLib} (known : list Server) (l1 l2 : list Exchange) :
  referred known (l1 ++ l2)
  <-> referred known l1 /\ referred (known ++ learned_all l1) l2.
Proof.
  revert known.
  induction l1 as [|x l1 IH]; intros known; cbn [app referred learned_all flat_map].
  - rewrite app_nil_r. tauto.
  - rewrite IH. fold (learned_all l1). rewrite <- app_assoc. tauto.
Qed.

Lemma referred_incl `{NameLib} (known known' : list Server) (log : list Exchange) :
  incl known known' -> referred known log -> referred known' log.
Proof.
  revert known known'.
  induction log as [|x log IH]; intros known known' Hi; cbn [referred];
    [auto|].
  intros [Hx Hr]. split; [now apply Hi|].
  eapply IH; [|exact Hr]. now apply incl_app_app; [|apply incl_refl].
Qed.

Lemma learned_all_app `{NameLib} (l1 l2 : list Exchange) :
  learned_all (l1 ++ l2) = learned_all l1 ++ learned_all l2.
Proof. unfold learned_all. apply flat_map_app. Qed.

Section Logs.
Variable L : NameLib.
Variable N : @Network L.

Variable self : Name -> RdType -> list Server -> @M L (logged N) Response.
Hypothesis self_logs_well :
  forall qname qtype servers w log outcome w' log',
    self qname qtype servers (w, log) = Some (outcome, (w', log')) ->
    logs_well qtype servers log outcome log'.

Lemma extend_addresses_incl (rrsets : list RRset) (acc : list Server) :
  incl (extend_addresses rrsets acc) (acc ++ extend_addresses rrsets []).
Proof.
  rewrite (extend_addresses_flat_map rrsets acc),
    (extend_addresses_flat_map rrsets []).
  apply incl_refl.
Qed.

Lemma ns_loop_logs ns_names acc w log next w' log' :
  @ns_loop L (logged N) self ns_names acc (w, log) = Some (next, (w', log')) ->
  exists new,
    log' = log ++ new
    /\ Forall (fun x => snd (fst (fst x)) = rdatatype.A) new
    /\ (forall known, incl ROOT_SERVERS known -> referred known new)
    /\ incl next (acc ++ learned_all new).
Proof.
  revert acc w log.
  induction ns_names as [|ns_name rest IH]; cbn [ns_loop]; intros acc w log Hl.
  - inv Hl. exists []. rewrite !app_nil_r.
    repeat split; [constructor|apply incl_refl].
  - destruct (from_text ns_name) as [q|]; [|eauto].
    destruct (self q rdatatype.A ROOT_SERVERS (w, log))
      as [[out [w1 log1]]|] eqn:Hs; [|discriminate].
    destruct (self_logs_well _ _ _ _ _ _ _ _ Hs)
      as (new1 & -> & Ht1 & Hr1 & Hlast).
    assert (Hstep : forall acc',
               incl acc' (acc ++ learned_all new1) ->
               @ns_loop L (logged N) self rest acc' (w1, log ++ new1)
               = Some (next, (w', log')) ->
               exists new,
                 log' = log ++ new
                 /\ Forall (fun x => snd (fst (fst x)) = rdatatype.A) new
                 /\ (forall known, incl ROOT_SERVERS known -> referred known new)
                 /\ incl next (acc ++ learned_all new)).
    { intros acc' Hacc Hrest.
      destruct (IH _ _ _ Hrest) as (new2 & -> & Ht2 & Hr2 & Hn2).
      exists (new1 ++ new2). rewrite app_assoc. split; [reflexivity|].
      split.
      { apply Forall_app. split; [|exact Ht2].
        eapply Forall_impl; [|exact Ht1]. unfold type_ok. tauto. }
      split.
      { intros known Hk. apply referred_app. split.
        - apply Hr1; [exact Hk|exact Hk].
        - apply Hr2. now apply incl_appl. }
      rewrite (@learned_all_app L), app_assoc.
      eapply incl_tran; [exact Hn2|].
      apply incl_app; [|apply incl_appr, incl_refl].
      apply incl_appl. exact Hacc. }
    destruct out as [r|e].
    + destruct (Hlast r eq_refl) as (old & q' & ns' & Hnew).
      assert (Hr : incl (extend_addresses (answer r) acc)
                        (acc ++ learned_all new1)).
      { eapply incl_tran; [apply extend_addresses_incl|].
        apply incl_app; [apply incl_appl, incl_refl|].
        apply incl_appr. rewrite Hnew, (@learned_all_app L).
        apply incl_appr. unfold learned_all. cbn [flat_map learned snd].
        rewrite app_nil_r. apply incl_appl, incl_refl. }
      destruct (truthy (answer r)).
      * now apply (Hstep _ Hr).
      * apply (Hstep acc); [apply incl_appl, incl_refl|exact Hl].
    + apply (Hstep acc); [apply incl_appl, incl_refl|exact Hl].
Qed.

Lemma return_call_logs qname qtype servers w log out w' log' :
  @return_call L (logged N) (self qname qtype servers) (w, log)
  = Some (out, (w', log')) ->
  exists out0,
    self qname qtype servers (w, log) = Some (out0, (w', log'))
    /\ forall r, out = Return (Some r) -> out0 = Return r.
Proof.
  unfold return_call. intros Hc.
  destruct (self qname qtype servers (w, log)) as [[[r0|e] wl]|];
    inv Hc; eexists; split; try reflexivity; congruence.
Qed.

Lemma on_response_logs qname qtype response w log out w' log' :
  @on_response L (logged N) self qname qtype response (w, log)
  = Some (out, (w', log')) ->
  exists new,
    log' = log ++ new
    /\ Forall (type_ok qtype) new
    /\ (forall known,
           incl ROOT_SERVERS known ->
           incl (extend_addresses (additional response) []) known ->
           referred known new)
    /\ (forall r, out = Return (Some r) ->
                  (r = response /\ new = [])
                  \/ exists old q ns, new = old ++ [(q, qtype, ns, Received r)]).
Proof.
  intros Ho.
  assert (Hstay : forall o : Res (option Response),
             (forall r, o = Return (Some r) -> r = response) ->
             Some (o, (w, log)) = Some (out, (w', log')) ->
             exists new,
               log' = log ++ new
               /\ Forall (type_ok qtype) new
               /\ (forall known,
                      incl ROOT_SERVERS known ->
                      incl (extend_addresses (additional response) []) known ->
                      referred known new)
               /\ (forall r, out = Return (Some r) ->
                             (r = response /\ new = [])
                             \/ exists old q ns,
                                 new = old ++ [(q, qtype, ns, Received r)])).
  { intros o Hres He. inv He. exists []. rewrite app_nil_r.
    repeat split; [constructor|]. intros r Hr. left. auto. }
  assert (Hcall : forall q servers wl,
             @return_call L (logged N) (self q qtype servers) wl
             = Some (out, (w', log')) ->
             forall pre,
               snd wl = log ++ pre ->
               Forall (type_ok qtype) pre ->
               (forall known, incl ROOT_SERVERS known -> referred known pre) ->
               (forall known,
                   incl ROOT_SERVERS known ->
                   incl (extend_addresses (additional response) []) known ->
                   incl servers (known ++ learned_all pre)) ->
               exists new,
                 log' = log ++ new
                 /\ Forall (type_ok qtype) new
                 /\ (forall known,
                        incl ROOT_SERVERS known ->
                        incl (extend_addresses (additional response) []) known ->
                        referred known new)
                 /\ (forall r, out = Return (Some r) ->
                               (r = response /\ new = [])
                               \/ exists old q ns,
                                   new = old ++ [(q, qtype, ns, Received r)])).
  { intros q servers [w0 log0] Hc pre Hpre Htpre Hrpre Hsv. cbn [snd] in Hpre.
    subst log0.
    destruct (return_call_logs _ _ _ _ _ _ _ _ Hc) as (out0 & Hself & Hr).
    destruct (self_logs_well _ _ _ _ _ _ _ _ Hself)
      as (new & -> & Ht & Hk & Hl).
    exists (pre ++ new). rewrite app_assoc. split; [reflexivity|].
    split; [apply Forall_app; auto|]. split.
    - intros known Hroot Hadd. apply referred_app. split; [auto|].
      apply Hk; [now apply incl_appl|auto].
    - intros r Hout. right.
      destruct (Hl r (Hr r Hout)) as (old & q' & ns & ->).
      exists (pre ++ old), q', ns. now rewrite app_assoc. }
  destruct (Z.eq_dec (rcode_of response) rcode.NXDOMAIN) as [Hc|Hc].
  { rewrite (on_response_nxdomain _ _ _ _ _ Hc) in Ho.
    eapply Hstay; [|exact Ho]. discriminate. }
  destruct (find (decides qtype) (answer response)) as [rrset|] eqn:Hf.
  { rewrite (on_response_decided _ _ _ _ _ _ Hc Hf) in Ho.
    destruct (rdtype rrset =? rdatatype.CNAME)%Z.
    - destruct (targets_of rrset) as [|tgt more].
      + eapply Hstay; [|exact Ho]. discriminate.
      + apply (Hcall _ _ _ Ho []); cbn [snd];
          [now rewrite app_nil_r|constructor|constructor|].
        intros known Hroot _. now apply incl_appl.
    - eapply Hstay; [|exact Ho]. congruence. }
  rewrite (on_response_undecided _ _ _ _ _ Hc Hf) in Ho.
  destruct (extend_addresses (additional response) []) as [|a l] eqn:He.
  - rewrite (follow_additional_no_glue _ _ _ _ _ He) in Ho.
    unfold follow_authority in Ho.
    destruct (truthy (authority response));
      [|eapply Hstay; [|exact Ho]; discriminate].
    destruct (authority_loop qname qtype (authority response) [] false)
      as [ns_names|e]; [|eapply Hstay; [|exact Ho]; discriminate].
    destruct (truthy ns_names); [|eapply Hstay; [|exact Ho]; discriminate].
    destruct (@ns_loop L (logged N) self ns_names [] (w, log))
      as [[next [w2 log2]]|] eqn:Hns; [|discriminate].
    destruct (ns_loop_logs _ _ _ _ _ _ _ Hns) as (pre & -> & Htp & Hrp & Hnext).
    assert (Htp' : Forall (type_ok qtype) pre).
    { eapply Forall_impl; [|exact Htp]. unfold type_ok. tauto. }
    destruct (truthy next).
    + apply (Hcall _ _ _ Ho pre); cbn [snd]; auto.
      intros known _ _. cbn [app] in Hnext. now apply incl_appr.
    + inv Ho. exists pre. repeat split; auto. discriminate.
  - rewrite follow_additional_glue in Ho by (rewrite He; discriminate).
    apply (Hcall _ _ _ Ho []); cbn [snd];
      [now rewrite app_nil_r|constructor|constructor|].
    intros known _ Hadd. apply incl_appl. now rewrite He.
Qed.
End Logs.

Section LoopLogs.
Variable L : NameLib.
Variable N : @Network L.
Variable self : Name -> RdType -> list Server -> @M L (logged N) Response.
Hypothesis self_logs_well :
  forall qname qtype servers w log outcome w' log',
    self qname qtype servers (w, log) = Some (outcome, (w', log')) ->
    logs_well qtype servers log outcome log'.

Lemma try_server_logs qname qtype ns lt sr w log step w' log' :
  @try_server L (logged N) self qname qtype ns lt sr (w, log)
  = Some (step, (w', log')) ->
  exists new,
    log' = log ++ new
    /\ Forall (type_ok qtype) new
    /\ (forall known, incl ROOT_SERVERS known -> In ns known -> referred known new)
    /\ (forall r, step = Break (Return r) ->
                  exists old q ns', new = old ++ [(q, qtype, ns', Received r)]).
Proof.
  unfold try_server. cbn [udp logged fst snd].
  set (x := (qname, qtype, ns, fst (@udp L N qname qtype ns w)) : Exchange).
  assert (Hx : type_ok qtype x) by (left; reflexivity).
  assert (Hquiet : forall s,
             learned x = [] ->
             (forall r, s <> Break (Return r)) ->
             Some (s, (snd (@udp L N qname qtype ns w), log ++ [x]))
             = Some (step, (w', log')) ->
             exists new,
               log' = log ++ new
               /\ Forall (type_ok qtype) new
               /\ (forall known,
                      incl ROOT_SERVERS known -> In ns known -> referred known new)
               /\ (forall r, step = Break (Return r) ->
                             exists old q ns',
                               new = old ++ [(q, qtype, ns', Received r)])).
  { intros s _ Hs He. inv He. exists [x].
    repeat split; [constructor; [exact Hx|constructor]|auto|].
    intros r Hr. now elim (Hs r). }
  destruct (fst (@udp L N qname qtype ns w)) as [response| |] eqn:Hreply;
    intros Ht; subst x.
  2,3: eapply Hquiet; [| |exact Ht]; [reflexivity|discriminate].
  set (x := (qname, qtype, ns, Received response) : Exchange) in *.
  match type of Ht with
  | context [match ?t with _ => _ end] =>
      destruct t as [[out [w2 log2]]|] eqn:Ho; [|discriminate]
  end.
  destruct (on_response_logs L N self self_logs_well _ _ _ _ _ _ _ _ Ho)
    as (new1 & -> & Ht1 & Hr1 & Hl1).
  assert (Hnew : log' = (log ++ [x]) ++ new1 /\ w' = w2).
  { destruct out as [[r|]|e]; [| |destruct e]; inv Ht; auto. }
  destruct Hnew as [-> ->].
  exists (x :: new1). rewrite <- app_assoc. split; [reflexivity|].
  split; [constructor; assumption|]. split.
  - intros known Hroot Hns. cbn [referred]. split; [exact Hns|].
    apply Hr1; [now apply incl_appl|].
    apply incl_appr. unfold learned. subst x. cbn [snd].
    apply incl_appr, incl_refl.
  - intros r Hs.
    assert (Hout : out = Return (Some r)).
    { destruct out as [[r0|]|e]; [| |destruct e]; inv Ht; congruence. }
    destruct (Hl1 r Hout) as [[-> ->]|(old & q & ns' & ->)].
    + exists [], qname, ns. reflexivity.
    + exists (x :: old), q, ns'. reflexivity.
Qed.

Lemma for_ns_logs qname qtype servers lt sr w log outcome w' log' :
  @for_ns L (logged N) self qname qtype servers lt sr (w, log)
  = Some (outcome, (w', log')) ->
  logs_well qtype servers log outcome log'.
Proof.
  revert lt sr w log.
  induction servers as [|ns rest IH]; cbn [for_ns]; intros lt sr w log Hf.
  - inv Hf. exists []. rewrite app_nil_r.
    repeat split; [constructor|discriminate].
  - destruct (@try_server L (logged N) self qname qtype ns lt sr (w, log))
      as [[step [w1 log1]]|] eqn:Ht; [|discriminate].
    destruct (try_server_logs _ _ _ _ _ _ _ _ _ _ Ht)
      as (new1 & -> & Ht1 & Hr1 & Hl1).
    destruct step as [out|lt1 sr1].
    + inv Hf. exists new1. split; [reflexivity|]. split; [exact Ht1|]. split.
      * intros known Hroot Hs. apply Hr1; [exact Hroot|].
        apply Hs. now left.
      * intros r ->. now apply Hl1.
    + destruct (IH _ _ _ _ Hf) as (new2 & -> & Ht2 & Hr2 & Hl2).
      exists (new1 ++ new2). rewrite app_assoc. split; [reflexivity|].
      split; [now apply Forall_app|]. split.
      * intros known Hroot Hs. apply referred_app. split.
        -- apply Hr1; [exact Hroot|]. apply Hs. now left.
        -- apply Hr2; [now apply incl_appl|].
           apply incl_appl. intros y Hy. apply Hs. now right.
      * intros r Hr. destruct (Hl2 r Hr) as (old & q & ns' & ->).
        exists (new1 ++ old), q, ns'. now rewrite app_assoc.
Qed.
End LoopLogs.

Lemma iterative_resolve_logs (L : NameLib) (N : @Network L) (fuel : nat) :
  forall qname qtype servers w log outcome w' log',
    @_iterative_resolve L (logged N) fuel qname qtype servers (w, log)
    = Some (outcome, (w', log')) ->
    logs_well qtype servers log outcome log'.
Proof.
  induction fuel as [|fuel IH]; intros qname qtype servers w log outcome w' log';
    [discriminate|].
  cbn [_iterative_resolve]. apply for_ns_logs. exact IH.
Qed.

(** The run in the network with the log is the run in the network, with
    the log beside it. *)
Section Erasure.
Variable L : NameLib.
Variable N : @Network L.
Variable selfL : Name -> RdType -> list Server -> @M L (logged N) Response.
Variable self : Name -> RdType -> list Server -> @M L N Response.
Hypothesis self_erase :
  forall qname qtype servers w log,
    erase (selfL qname qtype servers (w, log)) = self qname qtype servers w.

Lemma return_call_erase qname qtype servers w log :
  erase (@return_call L (logged N) (selfL qname qtype servers) (w, log))
  = @return_call L N (self qname qtype servers) w.
Proof.
  unfold return_call. rewrite <- (self_erase qname qtype servers w log).
  destruct (selfL qname qtype servers (w, log)) as [[[r|e] [w1 log1]]|];
    reflexivity.
Qed.

Lemma ns_loop_erase ns_names next w log :
  erase (@ns_loop L (logged N) selfL ns_names next (w, log))
  = @ns_loop L N self ns_names next w.
Proof.
  revert next w log.
  induction ns_names as [|ns_name rest IH]; cbn [ns_loop]; intros next w log;
    [reflexivity|].
  destruct (from_text ns_name) as [q|]; [|apply IH].
  rewrite <- (self_erase q rdatatype.A ROOT_SERVERS w log).
  destruct (selfL q rdatatype.A ROOT_SERVERS (w, log))
    as [[[r|e] [w1 log1]]|]; cbn [erase fst]; [|apply IH|reflexivity].
  destruct (truthy (answer r)); apply IH.
Qed.

Lemma on_response_erase qname qtype response w log :
  erase (@on_response L (logged N) selfL qname qtype response (w, log))
  = @on_response L N self qname qtype response w.
Proof.
  destruct (Z.eq_dec (rcode_of response) rcode.NXDOMAIN) as [Hc|Hc].
  { now rewrite !on_response_nxdomain. }
  destruct (find (decides qtype) (answer response)) as [rrset|] eqn:Hf.
  { rewrite !(on_response_decided _ _ _ _ rrset _ Hc Hf).
    destruct (rdtype rrset =? rdatatype.CNAME)%Z; [|reflexivity].
    destruct (targets_of rrset); [reflexivity|apply return_call_erase]. }
  rewrite !on_response_undecided by assumption.
  destruct (extend_addresses (additional response) []) as [|a l] eqn:He.
  - rewrite !follow_additional_no_glue by assumption.
    unfold follow_authority.
    destruct (truthy (authority response)); [|reflexivity].
    destruct (authority_loop qname qtype (authority response) [] false)
      as [ns_names|e]; [|reflexivity].
    destruct (truthy ns_names); [|reflexivity].
    rewrite <- (ns_loop_erase ns_names [] w log).
    destruct (@ns_loop L (logged N) selfL ns_names [] (w, log))
      as [[next [w2 log2]]|]; cbn [erase fst]; [|reflexivity].
    destruct (truthy next); [apply return_call_erase|reflexivity].
  - rewrite !follow_additional_glue by (rewrite He; discriminate).
    apply return_call_erase.
Qed.

Lemma for_ns_erase qname qtype servers lt sr w log :
  erase (@for_ns L (logged N) selfL qname qtype servers lt sr (w, log))
  = @for_ns L N self qname qtype servers lt sr w.
Proof.
  revert lt sr w log.
  induction servers as [|ns rest IH]; cbn [for_ns]; intros lt sr w log;
    [reflexivity|].
  unfold try_server. cbn [udp logged fst snd].
  destruct (@udp L N qname qtype ns w) as [[response| |] w1]; cbn [fst snd];
    try apply IH.
  rewrite <- (on_response_erase qname qtype response w1
                (log ++ [(qname, qtype, ns, Received response)])).
  destruct (@on_response L (logged N) selfL qname qtype response
              (w1, log ++ [(qname, qtype, ns, Received response)]))
    as [[[[r|]|e] [w2 log2]]|]; cbn [erase fst]; try reflexivity; try apply IH.
  destruct e; try reflexivity; apply IH.
Qed.
End Erasure.

Lemma iterative_resolve_erase (L : NameLib) (N : @Network L) (fuel : nat) :
  forall qname qtype servers w log,
    erase (@_iterative_resolve L (logged N) fuel qname qtype servers (w, log))
    = @_iterative_resolve L N fuel qname qtype servers w.
Proof.
  induction fuel as [|fuel IH]; intros qname qtype servers w log;
    [reflexivity|].
  cbn [_iterative_resolve]. apply for_ns_erase. exact IH.
Qed.

(** A run of the engine has a log. *)
Lemma iterative_resolve_has_log (L : NameLib) (N : @Network L) fuel
      qname qtype servers w outcome w' :
  @_iterative_resolve L N fuel qname qtype servers w = Some (outcome, w') ->
  exists log,
    @_iterative_resolve L (logged N) fuel qname qtype servers (w, [])
    = Some (outcome, (w', log))
    /\ logs_well qtype servers [] outcome log.
Proof.
  intros Hr. rewrite <- (iterative_resolve_erase L N fuel _ _ _ w []) in Hr.
  destruct (@_iterative_resolve L (logged N) fuel qname qtype servers (w, []))
    as [[out [w1 log]]|] eqn:Hl; [|discriminate].
  cbn [erase fst] in Hr. inv Hr. exists log. split; [reflexivity|].
  eapply iterative_resolve_logs; eauto.
Qed.

(** X15.  The engine only sends queries of the requested type and of the
    type A: the exchanges of a call, as the network with the log records
    them, hold no other type.  The run with the log is the run without it:
    same outcome, same world. *)
Theorem queries_are_of_the_requested_type_or_A (L : NameLib) (N : @Network L)
        (fuel : nat) (qname : Name) (qtype : RdType) (servers : list Server)
        (w : World) (outcome : Res Response) (w' : World) :
  @_iterative_resolve L N fuel qname qtype servers w = Some (outcome, w') ->
  exists log,
    @_iterative_resolve L (logged N) fuel qname qtype servers (w, [])
    = Some (outcome, (w', log))
    /\ Forall (fun x : Exchange =>
                 snd (fst (fst x)) = qtype \/ snd (fst (fst x)) = rdatatype.A)
              log.
Proof.
  intros Hr.
  destruct (iterative_resolve_has_log L N _ _ _ _ _ _ _ Hr)
    as (log & Hl & new & Hn & Ht & _).
  exists log. split; [exact Hl|]. cbn [app] in Hn. now subst new.
Qed.

Lemma queries_are_of_the_requested_type_or_A_witness :
  exists log,
    @_iterative_resolve text_names (logged (scripted lame_delegation)) 2
      "example.org."%string rdatatype.A ROOT_SERVERS
      ([] : list Query, [])
    = Some (Raise (NoRecordError
              "Found NS records but could not resolve any nameserver IPs for example.org."),
            ([("example.org.", rdatatype.A, "198.41.0.4")]%string
               ++ map (fun ns => ("ns1.example.net."%string, rdatatype.A, ns))
                      ROOT_SERVERS
               ++ map (fun ns => ("ns2.example.net."%string, rdatatype.A, ns))
                      ROOT_SERVERS,
             log))
    /\ Forall (fun x : @Exchange text_names =>
                 snd (fst (fst x)) = rdatatype.A
                 \/ snd (fst (fst x)) = rdatatype.A) log.
Proof.
  refine (@queries_are_of_the_requested_type_or_A text_names
            (scripted lame_delegation) 2 "example.org."%string rdatatype.A
            ROOT_SERVERS [] _ _ _).
  vm_compute. reflexivity.
Defined.

(** X16.  The engine only sends queries to servers it was referred to:
    every query of a call goes to a server of the set the call was given,
    to a root server, or to an address read in an A rrset of the answer or
    additional section of a response received earlier in the call.  A
    returned response is the reply of the last exchange. *)
Theorem queries_go_to_referred_servers (L : NameLib) (N : @Network L)
        (fuel : nat) (qname : Name) (qtype : RdType) (servers : list Server)
        (w : World) (outcome : Res Response) (w' : World) :
  @_iterative_resolve L N fuel qname qtype servers w = Some (outcome, w') ->
  exists log,
    @_iterative_resolve L (logged N) fuel qname qtype servers (w, [])
    = Some (outcome, (w', log))
    /\ referred (ROOT_SERVERS ++ servers) log
    /\ (forall r, outcome = Return r ->
                  exists old qname' ns,
                    log = old ++ [(qname', qtype, ns, Received r)]).
Proof.
  intros Hr.
  destruct (iterative_resolve_has_log L N _ _ _ _ _ _ _ Hr)
    as (log & Hl & new & Hn & _ & Hk & Hlast).
  cbn [app] in Hn. subst new.
  exists log. split; [exact Hl|]. split; [|exact Hlast].
  apply Hk; [now apply incl_appl|now apply incl_appr].
Qed.

Lemma queries_go_to_referred_servers_witness :
  exists log,
    @_iterative_resolve text_names (logged (scripted example_com)) 3
      "example.com."%string rdatatype.A ROOT_SERVERS ([] : list Query, [])
    = Some (Return example_com_answer,
            ([("example.com.", rdatatype.A, "198.41.0.4");
              ("example.com.", rdatatype.A, "192.5.6.30");
              ("example.com.", rdatatype.A, "199.43.135.53")]%string,
             log))
    /\ referred (ROOT_SERVERS ++ ROOT_SERVERS) log
    /\ (forall r, Return example_com_answer = Return r ->
                  exists old qname' ns,
                    log = old ++ [(qname', rdatatype.A, ns, Received r)]).
Proof.
  refine (@queries_go_to_referred_servers text_names (scripted example_com) 3
            "example.com."%string rdatatype.A ROOT_SERVERS [] _ _ _).
  vm_compute. reflexivity.
Defined.
